(** * Weather dashboard pipeline: a shallow embedding of [Weather_data_project.py]

    The script fetches the current weather of a fixed list of cities,
    builds one record per city that answered, stops when no city
    answered, and otherwise renders a dashboard and prints a summary.

    Python objects coming out of [response.json()] are embedded as the
    type [pyval]; Python floats are IEEE binary64 and are embedded as
    Rocq's primitive floats, Python ints as [Z].  The network is an
    oracle [net] from cities to fetch outcomes; the console and the
    file system are threaded through the program as an explicit state. *)

From Stdlib Require Import ZArith Floats QArith Qpower.
From stdpp Require Import gmap strings list.

Set Warnings "-register-all,-inexact-float".
Open Scope Z_scope.

(** ** Python values and exceptions *)

(** What [json] can hand back: [None], booleans, integers, floats,
    strings, lists and dictionaries keyed by strings. *)
Inductive pyval : Type :=
  | PNone
  | PBool (b : bool)
  | PInt (z : Z)
  | PFloat (f : float)
  | PStr (s : string)
  | PList (l : list pyval)
  | PDict (d : gmap string pyval).

(** What ends a run early: the exceptions the script does not catch,
    [SystemExit] raised by [exit()], [RenderingError] for whatever
    exception a plotting call raises (matplotlib's own, such as the
    [ValueError] of a figure whose extent overflows), and [NotModelled]
    for a table with a column that pandas would not store as [int64]
    or [float64] (booleans, strings, huge ints): how pandas and
    matplotlib treat such a column is outside this embedding. *)
Inductive pyexn : Type :=
  | TypeError
  | AttributeError
  | OverflowError
  | KeyError
  | ValueError
  | SystemExit
  | RenderingError
  | NotModelled.

Inductive result (A : Type) : Type :=
  | Ok (a : A)
  | Raise (e : pyexn).
Arguments Ok {A} a.
Arguments Raise {A} e.

#[global] Instance result_ret : MRet result := fun A a => Ok a.

#[global] Instance result_bind : MBind result := fun A B k r =>
  match r with
  | Ok a => k a
  | Raise e => Raise e
  end.

(** ** Numbers *)

(** [float(z)] for a Python int: the nearest binary64 value, ties to
    even; an int too large for a float raises [OverflowError]. *)
Definition int_to_float (z : Z) : result float :=
  match binary_normalize prec emax z 0 false with
  | S754_infinity _ => Raise OverflowError
  | sf => Ok (SF2Prim sf)
  end.

(** The cast of an [int64] to [float64] in numpy: same rounding, and
    no overflow in that range. *)
Definition Z_to_float (z : Z) : float :=
  SF2Prim (binary_normalize prec emax z 0 false).

Definition is_int64 (z : Z) : bool := (- 2 ^ 63 <=? z) && (z <? 2 ^ 63).

(** [int64] arithmetic wraps around. *)
Definition wrap64 (z : Z) : Z := (z + 2 ^ 63) mod 2 ^ 64 - 2 ^ 63.

(** The operand of a float operation: floats as they are, ints and
    booleans converted, anything else is a [TypeError]. *)
Definition as_float (v : pyval) : result float :=
  match v with
  | PFloat f => Ok f
  | PInt z => int_to_float z
  | PBool b => Ok (if b then 1%float else 0%float)
  | _ => Raise TypeError
  end.

(** [v * f] for a float [f]. *)
Definition py_mul_float (v : pyval) (f : float) : result float :=
  x ← as_float v; Ok (x * f)%float.

(** [v - f] for a float [f]. *)
Definition py_sub_float (v : pyval) (f : float) : result float :=
  x ← as_float v; Ok (x - f)%float.

(** The integer a float is equal to, when there is one ([0.0 == 0],
    [45.0 == 45]); used for dictionary keys, where equal numbers are the
    same key. *)
Definition float_integral (f : float) : option Z :=
  match Prim2SF f with
  | S754_zero _ => Some 0
  | S754_finite s m e =>
      let signed (n : Z) := if s then - n else n in
      if 0 <=? e then Some (signed (Z.pos m * 2 ^ e))
      else if Z.pos m mod 2 ^ (- e) =? 0
           then Some (signed (Z.pos m / 2 ^ (- e)))
           else None
  | _ => None
  end.

(** ** City registry *)

Record city := {
  name : string;
  lat : float;
  lon : float
}.

Definition cities : list city := [
  {| name := "London"; lat := 51.5074; lon := -0.1278 |};
  {| name := "New York"; lat := 40.7128; lon := -74.0060 |};
  {| name := "Tokyo"; lat := 35.6762; lon := 139.6503 |};
  {| name := "Paris"; lat := 48.8566; lon := 2.3522 |};
  {| name := "Sydney"; lat := -33.8688; lon := 151.2093 |};
  {| name := "Mumbai"; lat := 19.0760; lon := 72.8777 |};
  {| name := "Dubai"; lat := 25.2048; lon := 55.2708 |};
  {| name := "Singapore"; lat := 1.3521; lon := 103.8198 |};
  {| name := "Berlin"; lat := 52.5200; lon := 13.4050 |};
  {| name := "Toronto"; lat := 43.6532; lon := -79.3832 |}
]%float.

(** ** Weather codes *)

Definition weather_codes_items : list (Z * string) := [
  (0, "Clear sky");
  (1, "Mainly clear");
  (2, "Partly cloudy");
  (3, "Overcast");
  (45, "Foggy");
  (48, "Foggy");
  (51, "Light drizzle");
  (53, "Moderate drizzle");
  (55, "Dense drizzle");
  (61, "Slight rain");
  (63, "Moderate rain");
  (65, "Heavy rain");
  (71, "Slight snow");
  (73, "Moderate snow");
  (75, "Heavy snow");
  (77, "Snow grains");
  (80, "Slight rain showers");
  (81, "Moderate rain showers");
  (82, "Violent rain showers");
  (85, "Slight snow showers");
  (86, "Heavy snow showers");
  (95, "Thunderstorm");
  (96, "Thunderstorm with hail");
  (99, "Thunderstorm with hail")
]%string.

Definition weather_codes : gmap Z string := list_to_map weather_codes_items.

(** The integer key a Python object hashes and compares equal to, if
    any.  Lists and dictionaries are unhashable. *)
Definition dict_key (v : pyval) : result (option Z) :=
  match v with
  | PInt z => Ok (Some z)
  | PBool b => Ok (Some (if b then 1 else 0))
  | PFloat f => Ok (float_integral f)
  | PNone | PStr _ => Ok None
  | PList _ | PDict _ => Raise TypeError
  end.

(** [weather_codes.get(code, "Unknown")] *)
Definition get_weather_description (code : pyval) : result string :=
  k ← dict_key code;
  Ok (default "Unknown"%string (k ≫= (weather_codes !!.))).

(** ** Operations on the fetched JSON *)

(** Truth value of an object in a condition. *)
Definition truthy (v : pyval) : bool :=
  match v with
  | PNone => false
  | PBool b => b
  | PInt z => negb (z =? 0)
  | PFloat f => negb (f =? 0)%float
  | PStr s => negb (String.eqb s "")
  | PList l => negb (bool_decide (l = []))
  | PDict d => negb (bool_decide (d = ∅))
  end.

Fixpoint is_substring (p s : string) : bool :=
  String.prefix p s ||
  match s with
  | EmptyString => false
  | String _ s' => is_substring p s'
  end.

(** [key in v] for a string [key]: a key of a dictionary, an element
    of a list, a substring of a string; other objects are not
    iterable. *)
Definition py_contains (key : string) (v : pyval) : result bool :=
  match v with
  | PDict d => Ok (bool_decide (is_Some (d !! key)))
  | PList l =>
      Ok (existsb (fun x => match x with
                            | PStr s => String.eqb s key
                            | _ => false
                            end) l)
  | PStr s => Ok (is_substring key s)
  | _ => Raise TypeError
  end.

(** [v[key]] for a string [key]. *)
Definition py_getitem (v : pyval) (key : string) : result pyval :=
  match v with
  | PDict d =>
      match d !! key with
      | Some x => Ok x
      | None => Raise KeyError
      end
  | _ => Raise TypeError
  end.

(** [v.get(key, dflt)]: only dictionaries have the method. *)
Definition py_get (v : pyval) (key : string) (dflt : pyval) : result pyval :=
  match v with
  | PDict d => Ok (default dflt (d !! key))
  | _ => Raise AttributeError
  end.

(** ** Records *)

(** One entry of [weather_data]; the fields are the keys of the
    dictionary the loop builds. *)
Record weather_info := {
  City : string;
  Temperature : pyval;
  Humidity : pyval;
  Wind_Speed : pyval;
  Weather_Code : pyval;
  Weather : string;
  Latitude : float;
  Longitude : float;
  Feels_Like : float
}.

(** The body of the [if] of the loop, up to the [append]: the
    dictionary literal, then the wind chill and the feels-like entry. *)
Definition build_weather_info (city_info : city) (current : pyval)
    : result weather_info :=
  temperature ← py_get current "temperature_2m" (PInt 0);
  humidity ← py_get current "relative_humidity_2m" (PInt 0);
  wind_speed ← py_get current "wind_speed_10m" (PInt 0);
  weather_code ← py_get current "weather_code" (PInt 0);
  code ← py_get current "weather_code" (PInt 0);
  weather ← get_weather_description code;
  wind_chill ← py_mul_float wind_speed 0.5;
  feels_like ← py_sub_float temperature wind_chill;
  Ok {| City := name city_info;
        Temperature := temperature;
        Humidity := humidity;
        Wind_Speed := wind_speed;
        Weather_Code := weather_code;
        Weather := weather;
        Latitude := lat city_info;
        Longitude := lon city_info;
        Feels_Like := feels_like |}.

(** ** Columns of the data frame *)

(** A numpy scalar. *)
Inductive number : Type :=
  | Int64 (z : Z)
  | Float64 (f : float).

(** A numeric column of [pd.DataFrame(weather_data)]: [int64] when
    every entry is an int of that range, [float64] when ints and floats
    are mixed (the ints are cast). *)
Inductive column : Type :=
  | IntColumn (l : list Z)
  | FloatColumn (l : list float).

Definition int_cell (v : pyval) : option Z :=
  match v with
  | PInt z => if is_int64 z then Some z else None
  | _ => None
  end.

Definition float_cell (v : pyval) : option float :=
  match v with
  | PFloat f => Some f
  | PInt z => if is_int64 z then Some (Z_to_float z) else None
  | _ => None
  end.

Definition to_column (vals : list pyval) : result column :=
  match mapM int_cell vals with
  | Some l => Ok (IntColumn l)
  | None =>
      match mapM float_cell vals with
      | Some l => Ok (FloatColumn l)
      | None => Raise NotModelled
      end
  end.

(** [Series.idxmax()] and [Series.idxmin()], as pandas documents them:
    the position of the first occurrence of the extreme value, missing
    values (NaN) skipped.  [first_best_from i best l] scans [l], whose
    head has position [i], carrying the best entry seen so far; an
    entry replaces it only when it is strictly better. *)
Section FirstBest.
Context {T : Type} (better : T -> T -> bool) (missing : T -> bool).

Definition keep_best (i : nat) (x : T) (best : option (nat * T))
    : option (nat * T) :=
  if missing x then best
  else match best with
       | None => Some (i, x)
       | Some (_, b) => if better x b then Some (i, x) else best
       end.

Fixpoint first_best_from (i : nat) (best : option (nat * T)) (l : list T)
    : option (nat * T) :=
  match l with
  | [] => best
  | x :: l' => first_best_from (S i) (keep_best i x best) l'
  end.

Definition first_best (l : list T) : option (nat * T) :=
  first_best_from 0 None l.

(** [l !! k] is a value that no entry of [l] beats, and it beats every
    entry before it; missing entries do not take part. *)
Definition first_extreme (l : list T) (k : nat) (v : T) : Prop :=
  l !! k = Some v /\ missing v = false /\
  (forall j x, l !! j = Some x -> missing x = false -> better x v = false) /\
  (forall j x, (j < k)%nat -> l !! j = Some x -> missing x = false ->
               better v x = true).

Definition scanned (l : list T) (best : option (nat * T)) : Prop :=
  match best with
  | None => Forall (fun x => missing x = true) l
  | Some (k, v) => first_extreme l k v
  end.
End FirstBest.

Definition Z_gt (x y : Z) : bool := y <? x.
Definition Z_lt (x y : Z) : bool := x <? y.
Definition float_gt (x y : float) : bool := (y <? x)%float.
Definition float_lt (x y : float) : bool := (x <? y)%float.
Definition never {T} (_ : T) : bool := false.

(** Position and value of the first maximum, [None] when every entry
    is NaN (or there is none). *)
Definition idxmax (c : column) : option (nat * number) :=
  match c with
  | IntColumn l => prod_map id Int64 <$> first_best Z_gt never l
  | FloatColumn l => prod_map id Float64 <$> first_best float_gt is_nan l
  end.

Definition idxmin (c : column) : option (nat * number) :=
  match c with
  | IntColumn l => prod_map id Int64 <$> first_best Z_lt never l
  | FloatColumn l => prod_map id Float64 <$> first_best float_lt is_nan l
  end.

(** [Series.max()] and [Series.min()]: NaN when nothing is left after
    the missing values are skipped. *)
Definition column_max (c : column) : number :=
  default (Float64 nan) (snd <$> idxmax c).

Definition column_min (c : column) : number :=
  default (Float64 nan) (snd <$> idxmin c).

(** ** The dashboard *)

(** Panel 1: [(values - min) / (max - min)], the argument of the colour
    map.  On an [int64] column the subtractions are integer
    subtractions and the division casts both sides to [float64]; numpy
    divides by zero without raising. *)
Definition number_sub (x y : number) : number :=
  match x, y with
  | Int64 a, Int64 b => Int64 (wrap64 (a - b))
  | Int64 a, Float64 b => Float64 (Z_to_float a - b)
  | Float64 a, Int64 b => Float64 (a - Z_to_float b)
  | Float64 a, Float64 b => Float64 (a - b)
  end.

Definition number_to_float (x : number) : float :=
  match x with
  | Int64 z => Z_to_float z
  | Float64 f => f
  end.

Definition cells (c : column) : list number :=
  match c with
  | IntColumn l => Int64 <$> l
  | FloatColumn l => Float64 <$> l
  end.

Definition color_numerators (c : column) : list float :=
  (fun v => number_to_float (number_sub v (column_min c))) <$> cells c.

Definition color_divisor (c : column) : float :=
  number_to_float (number_sub (column_max c) (column_min c)).

Definition temperature_colors (c : column) : list float :=
  (fun n => n / color_divisor c)%float <$> color_numerators c.

(** What the six panels are drawn from: the arguments of the plotting
    calls.  The drawing itself is matplotlib's; whether it goes through
    is read on the [matplotlib] record below. *)
Record dashboard := {
  bar_cities : list string;
  bar_temperatures : column;
  bar_colors : list float;
  scatter_humidity : column;
  line_wind_speed : column;
  pie_weather : list string;
  grouped_feels_like : list float
}.

Definition dashboard_series (df : list weather_info) : result dashboard :=
  temperature ← to_column (Temperature <$> df);
  humidity ← to_column (Humidity <$> df);
  wind_speed ← to_column (Wind_Speed <$> df);
  Ok {| bar_cities := City <$> df;
        bar_temperatures := temperature;
        bar_colors := temperature_colors temperature;
        scatter_humidity := humidity;
        line_wind_speed := wind_speed;
        pie_weather := Weather <$> df;
        grouped_feels_like := Feels_Like <$> df |}.

(** The plotting library is outside the script.  Its calls are not in a
    [try]: [draws fig] tells whether the calls that build the figure
    from these series (the six panels and [plt.tight_layout()]) go
    through, [saves fig] whether [plt.savefig] then writes the file.
    Whatever they raise is a [RenderingError]. *)
Record matplotlib := {
  draws : dashboard -> bool;
  saves : dashboard -> bool
}.

(** The figure of the script: the series, then the plotting calls. *)
Definition render_dashboard (mpl : matplotlib) (df : list weather_info)
    : result dashboard :=
  fig ← dashboard_series df;
  if draws mpl fig then Ok fig else Raise RenderingError.

(** ** The program state and its monad *)

(** What the script prints, one constructor per message. *)
Inductive event : Type :=
  | Banner
  | Fetching (city_name : string)
  | FetchFailed (city_name : string) (e : string)
  | Fetched (city_name : string) (temperature : pyval) (weather : string)
  | NoDataError
  | DataFetched (rows : list weather_info)
  | DashboardSaved
  | SummaryHeader
  | AverageTemperature
  | HighestTemperature (value : number) (city_name : string)
  | LowestTemperature (value : number) (city_name : string)
  | AverageHumidity
  | AverageWindSpeed
  | TaskCompleted.

Record state := {
  console : list event;
  weather_data : list weather_info;
  files : list (string * dashboard)
}.

Definition initial : state :=
  {| console := []; weather_data := []; files := [] |}.

(** A statement runs from a state to a state and either returns or
    raises; what was printed before an exception stays printed. *)
Definition prog (A : Type) : Type := state -> result A * state.

#[global] Instance prog_ret : MRet prog := fun A a st => (Ok a, st).

#[global] Instance prog_bind : MBind prog := fun A B k m st =>
  match m st with
  | (Ok a, st') => k a st'
  | (Raise e, st') => (Raise e, st')
  end.

Definition lift {A} (r : result A) : prog A := fun st => (r, st).

Definition print (e : event) : prog unit := fun st =>
  (Ok tt, {| console := console st ++ [e];
             weather_data := weather_data st;
             files := files st |}).

Definition append (w : weather_info) : prog unit := fun st =>
  (Ok tt, {| console := console st;
             weather_data := weather_data st ++ [w];
             files := files st |}).

Definition savefig (mpl : matplotlib) (path : string) (fig : dashboard)
    : prog unit := fun st =>
  if saves mpl fig then
    (Ok tt, {| console := console st;
               weather_data := weather_data st;
               files := files st ++ [(path, fig)] |})
  else (Raise RenderingError, st).

Definition get_weather_data : prog (list weather_info) := fun st =>
  (Ok (weather_data st), st).

(** [exit()] *)
Definition exit {A} : prog A := lift (Raise SystemExit).

Fixpoint for_each {A} (l : list A) (body : A -> prog unit) : prog unit :=
  match l with
  | [] => mret tt
  | x :: l' => body x;; for_each l' body
  end.

(** ** Fetching *)

(** What one GET comes to: [requests] raised a [RequestException]
    (connection error, timeout, a status that [raise_for_status]
    rejects), or the body parsed. *)
Inductive fetch_outcome : Type :=
  | RequestException (e : string)
  | Body (json : pyval).

Definition network : Type := city -> fetch_outcome.

Definition fetch_weather_data (net : network) (city_info : city) : prog pyval :=
  match net city_info with
  | Body json => mret json
  | RequestException e =>
      print (FetchFailed (name city_info) e);;
      mret PNone
  end.

(** [data and 'current' in data] as the condition of the [if]. *)
Definition has_current (data : pyval) : result bool :=
  if truthy data then py_contains "current" data else Ok false.

(** One iteration of the loop over [cities]. *)
Definition collect (net : network) (city_info : city) : prog unit :=
  print (Fetching (name city_info));;
  data ← fetch_weather_data net city_info;
  guard ← lift (has_current data);
  if guard : bool then
    current ← lift (py_getitem data "current");
    weather_info ← lift (build_weather_info city_info current);
    append weather_info;;
    print (Fetched (name city_info) (Temperature weather_info)
                   (Weather weather_info))
  else mret tt.

Definition collect_all (net : network) (registry : list city) : prog unit :=
  for_each registry (collect net).

(** ** The whole script *)

(** [df.loc[i, 'City']] for a position found by [idxmax]; pandas
    raises when [idxmax] found none. *)
Definition city_at (df : list weather_info) (found : option (nat * number))
    : result (number * string) :=
  match found with
  | None => Raise ValueError
  | Some (i, v) =>
      match df !! i with
      | Some row => Ok (v, City row)
      | None => Raise KeyError
      end
  end.

Definition summary_statistics (df : list weather_info) : prog unit :=
  print SummaryHeader;;
  temperature ← lift (to_column (Temperature <$> df));
  print AverageTemperature;;
  highest ← lift (city_at df (idxmax temperature));
  print (HighestTemperature highest.1 highest.2);;
  lowest ← lift (city_at df (idxmin temperature));
  print (LowestTemperature lowest.1 lowest.2);;
  _ ← lift (to_column (Humidity <$> df));
  print AverageHumidity;;
  _ ← lift (to_column (Wind_Speed <$> df));
  print AverageWindSpeed.

(** The script from top to bottom, over a registry.  The six panels
    are built by [render_dashboard]; [plt.show()] displays the figure
    that was just saved and changes nothing that is modelled.  The
    averages are printed without their values: no statement here is
    about them. *)
Definition run (mpl : matplotlib) (net : network) (registry : list city)
    : prog unit :=
  print Banner;;
  collect_all net registry;;
  df ← get_weather_data;
  (if bool_decide (df = []) then print NoDataError;; exit else mret tt);;
  print (DataFetched df);;
  fig ← lift (render_dashboard mpl df);
  savefig mpl "weather_dashboard.png" fig;;
  print DashboardSaved;;
  summary_statistics df;;
  print TaskCompleted.

Definition main (mpl : matplotlib) (net : network) : result unit * state :=
  run mpl net cities initial.

(** A plotting library that raises on nothing. *)
Definition agreeable : matplotlib :=
  {| draws := fun _ => true; saves := fun _ => true |}.

(** ** The end-to-end scenario: city A answers, city B is unreachable *)

Definition payload (t h w c : pyval) : pyval :=
  PDict {[ "current" :=
    PDict (<[ "temperature_2m" := t ]>
          (<[ "relative_humidity_2m" := h ]>
          (<[ "wind_speed_10m" := w ]>
          {[ "weather_code" := c ]}))) ]}.

Definition city_A : city := {| name := "A"; lat := 0; lon := 0 |}.
Definition city_B : city := {| name := "B"; lat := 1; lon := 1 |}.

Definition scenario_registry : list city := [city_A; city_B].

Definition scenario_net : network := fun c =>
  if String.eqb (name c) "A"
  then Body (payload (PInt 15) (PInt 50) (PInt 4) (PInt 0))
  else RequestException "connection refused".

Definition unreachable : network := fun _ =>
  RequestException "connection refused".

Definition record_A : weather_info :=
  {| City := "A"; Temperature := PInt 15; Humidity := PInt 50;
     Wind_Speed := PInt 4; Weather_Code := PInt 0; Weather := "Clear sky";
     Latitude := 0; Longitude := 0; Feels_Like := 13 |}.

(** The series of the figure drawn from that one record. *)
Definition figure_A : dashboard :=
  {| bar_cities := ["A"]%string;
     bar_temperatures := IntColumn [15];
     bar_colors := [nan];
     scatter_humidity := IntColumn [50];
     line_wind_speed := IntColumn [4];
     pie_weather := ["Clear sky"]%string;
     grouped_feels_like := [13%float] |}.

(** A run in which A reports frost and no wind. *)
Definition frost_net : network := fun c =>
  if String.eqb (name c) "A"
  then Body (payload (PFloat (-3.5)) (PInt 80) (PInt 0) (PInt 71))
  else RequestException "connection refused".

Definition record_frost : weather_info :=
  {| City := "A"; Temperature := PFloat (-3.5); Humidity := PInt 80;
     Wind_Speed := PInt 0; Weather_Code := PInt 71; Weather := "Slight snow";
     Latitude := 0; Longitude := 0; Feels_Like := -3.5 |}.

(** A run in which A answers with an empty [current] section and B
    with a body that has none. *)
Definition sparse_net : network := fun c =>
  if String.eqb (name c) "A"
  then Body (PDict {[ "current" := PDict ∅ ]})
  else Body (PDict {[ "latitude" := PFloat 1 ]}).

(** A table in which B and C tie for the highest temperature and A and
    D for the lowest. *)
Definition row (city_name : string) (temperature : Z) : weather_info :=
  {| City := city_name; Temperature := PInt temperature;
     Humidity := PInt 50; Wind_Speed := PInt 4; Weather_Code := PInt 0;
     Weather := "Clear sky"; Latitude := 0; Longitude := 0;
     Feels_Like := Z_to_float temperature - 2 |}.

Definition tie_table : list weather_info :=
  [row "A" 10; row "B" 30; row "C" 30; row "D" 10].

(** The lines the loop prints. *)
Definition is_progress (e : event) : bool :=
  match e with
  | Banner | Fetching _ | FetchFailed _ _ | Fetched _ _ _ => true
  | _ => false
  end.

(** ** Well-formed answers *)





(** The fetch of a city succeeded: a body came back and the guard of
    the loop found a [current] entry in it. *)
Definition answered (net : network) (city_info : city) : bool :=
  match net city_info with
  | Body json =>
      match has_current json with
      | Ok b => b
      | Raise _ => false
      end
  | RequestException _ => false
  end.

(** ** Success of a fetch, read on the response alone *)

(** The body is a JSON object with a [current] entry. *)
Definition has_current_section (json : pyval) : bool :=
  match json with
  | PDict data => bool_decide (is_Some (data !! "current"))
  | _ => false
  end.

(** The fetch of a city succeeded: a response is present and contains
    a [current] section. *)
Definition succeeded (net : network) (city_info : city) : bool :=
  match net city_info with
  | Body json => has_current_section json
  | RequestException _ => false
  end.






(** ** Exact values *)

(** The rational number a finite float stands for. *)
Definition float_value (f : float) : option Q :=
  match Prim2SF f with
  | S754_zero _ => Some 0%Q
  | S754_finite s m e =>
      Some ((if s then - inject_Z (Z.pos m) else inject_Z (Z.pos m)) * 2 ^ e)%Q
  | _ => None
  end.

(** The rational number a JSON number stands for. *)
Definition json_value (v : pyval) : option Q :=
  match v with
  | PInt z => Some (inject_Z z)
  | PFloat f => float_value f
  | _ => None
  end.

(** The feels-like value of a record is the real number
    temperature - 0.5 * wind speed. *)
Definition exact_feels_like (r : weather_info) : Prop :=
  match json_value (Temperature r), json_value (Wind_Speed r),
        float_value (Feels_Like r) with
  | Some t, Some w, Some f => (f == t - (1 # 2) * w)%Q
  | _, _, _ => False
  end.

(** The float a temperature or wind speed enters the arithmetic as: a
    float as it is; an integer rounded to the nearest float, which is
    the integer itself below 2^53; [True] and [False] as 1 and 0. *)
Definition converts_to (v : pyval) (f : float) : Prop :=
  match v with
  | PFloat x => f = x
  | PInt z =>
      f = SF2Prim (binary_normalize prec emax z 0 false) /\
      (Z.abs z < 2 ^ 53 ->
       exists q, float_value f = Some q /\ (q == inject_Z z)%Q)
  | PBool b => f = (if b then 1 else 0)%float
  | _ => False
  end.

(** A answers a temperature of 10^16 and a wind of 1, B is
    unreachable. *)
Definition large_net : network := fun c =>
  if String.eqb (name c) "A"
  then Body (payload (PInt (10 ^ 16)) (PInt 50) (PInt 1) (PInt 0))
  else RequestException "connection refused".

(** A plotting library that raises on every figure. *)
Definition failing : matplotlib :=
  {| draws := fun _ => false; saves := fun _ => false |}.

(** A answers with a temperature that is not a number (the literal
    [NaN], which Python's JSON parser accepts), B is unreachable. *)
Definition nan_net : network := fun c =>
  if String.eqb (name c) "A"
  then Body (payload (PFloat nan) (PInt 50) (PInt 4) (PInt 0))
  else RequestException "connection refused".

(** ** Vocabulary of the statements *)

(** The order numpy compares two cells of one column with. *)
Definition number_lt (x y : number) : bool :=
  match x, y with
  | Int64 a, Int64 b => a <? b
  | _, _ => (number_to_float x <? number_to_float y)%float
  end.

Definition number_missing (x : number) : bool :=
  match x with
  | Int64 _ => false
  | Float64 f => is_nan f
  end.

(** [cells !! k = v] is the first maximum: no cell is above [v] and
    every cell before position [k] is below it (NaN apart). *)
Definition first_max (cells : list number) (k : nat) (v : number) : Prop :=
  first_extreme (fun x y => number_lt y x) number_missing cells k v.

Definition first_min (cells : list number) (k : nat) (v : number) : Prop :=
  first_extreme number_lt number_missing cells k v.

Definition printed (es : list event) (st : state) : state :=
  {| console := console st ++ es;
     weather_data := weather_data st;
     files := files st |}.

Definition recorded (w : weather_info) (st : state) : state :=
  {| console := console st;
     weather_data := weather_data st ++ [w];
     files := files st |}.

(** What [collect] comes to, case by case. *)
Definition collect_cases (net : network) (city_info : city) (st : state)
    : result unit * state :=
  match net city_info with
  | RequestException e =>
      (Ok tt, printed [Fetching (name city_info);
                       FetchFailed (name city_info) e] st)
  | Body json =>
      match has_current json with
      | Raise e => (Raise e, printed [Fetching (name city_info)] st)
      | Ok false => (Ok tt, printed [Fetching (name city_info)] st)
      | Ok true =>
          match w ← py_getitem json "current";
                build_weather_info city_info w with
          | Raise e => (Raise e, printed [Fetching (name city_info)] st)
          | Ok w =>
              (Ok tt,
               printed [Fetching (name city_info);
                        Fetched (name city_info) (Temperature w) (Weather w)]
                       (recorded w st))
          end
      end
  end.

Definition saved (fig : dashboard) (st : state) : state :=
  {| console := console st;
     weather_data := weather_data st;
     files := files st ++ [("weather_dashboard.png"%string, fig)] |}.

Definition run_cases (mpl : matplotlib) (net : network)
    (registry : list city) (st : state) : result unit * state :=
  match collect_all net registry (printed [Banner] st) with
  | (Raise e, st1) => (Raise e, st1)
  | (Ok _, st1) =>
      let df := weather_data st1 in
      if bool_decide (df = []) then
        (Raise SystemExit, printed [NoDataError] st1)
      else
        match render_dashboard mpl df with
        | Raise e => (Raise e, printed [DataFetched df] st1)
        | Ok fig =>
            if saves mpl fig then
              match summary_statistics df
                      (printed [DashboardSaved]
                         (saved fig (printed [DataFetched df] st1))) with
              | (Raise e, st2) => (Raise e, st2)
              | (Ok _, st2) => (Ok tt, printed [TaskCompleted] st2)
              end
            else (Raise RenderingError, printed [DataFetched df] st1)
        end
  end.

Definition summary_lines (highest lowest : number * string) : list event :=
  [SummaryHeader; AverageTemperature;
   HighestTemperature highest.1 highest.2;
   LowestTemperature lowest.1 lowest.2;
   AverageHumidity; AverageWindSpeed].

(** The codes that the table labels [label]. *)
Definition codes_labelled (label : string) : gset Z :=
  dom (filter (fun kv => kv.2 = label) weather_codes).

(** The loop prints progress lines only and writes no file. *)
Definition quiet (st : state) : Prop :=
  files st = [] /\ Forall (fun e => is_progress e = true) (console st).

(** ** Reading the console and the table *)

(** The cities of the "Fetching data for ..." lines, in print order. *)
Definition fetching_lines (es : list event) : list string :=
  omap (fun e => match e with Fetching n => Some n | _ => None end) es.

(** The "Error fetching data for ..." lines: city and exception text. *)
Definition failed_lines (es : list event) : list (string * string) :=
  omap (fun e => match e with FetchFailed n x => Some (n, x) | _ => None end) es.

(** The check-mark lines: city, temperature and description. *)
Definition fetched_lines (es : list event) : list (string * pyval * string) :=
  omap (fun e => match e with Fetched n t w => Some (n, t, w) | _ => None end) es.

Definition fetched_line (r : weather_info) : string * pyval * string :=
  (City r, Temperature r, Weather r).

(** The registry entry a record carries: its name and coordinates. *)
Definition origin (r : weather_info) : city :=
  {| name := City r; lat := Latitude r; lon := Longitude r |}.

(** The cities of a registry whose request raises, with the exception
    text. *)
Definition request_failures (net : network) (registry : list city)
    : list (string * string) :=
  omap (fun c => match net c with
                 | RequestException x => Some (name c, x)
                 | Body _ => None
                 end) registry.

(** Panel 5: [df['Weather'].value_counts()], the number of records per
    description.  The order in which pandas lists the descriptions is
    left out. *)
Definition weather_counts (df : list weather_info) : gmap string nat :=
  foldr (fun r counts =>
           <[ Weather r := S (default 0%nat (counts !! Weather r)) ]> counts)
        ∅ df.

(** A run in which A answers with a [null] wind speed, and one in
    which its [current] entry is [null]. *)
Definition null_wind_net : network := fun c =>
  if String.eqb (name c) "A"
  then Body (payload (PInt 15) (PInt 50) PNone (PInt 0))
  else RequestException "connection refused".

Definition null_current_net : network := fun _ =>
  Body (PDict {[ "current" := PNone ]}).

(** * Properties *)

(** ** Sample runs *)

Example get_weather_description_45 :
  get_weather_description (PInt 45) = Ok "Foggy"%string.
Proof. vm_compute. reflexivity. Qed.

Example get_weather_description_4 :
  get_weather_description (PInt 4) = Ok "Unknown"%string.
Proof. vm_compute. reflexivity. Qed.

Example get_weather_description_float :
  get_weather_description (PFloat 95.0) = Ok "Thunderstorm"%string.
Proof. vm_compute. reflexivity. Qed.

Example scenario_table :
  weather_data (run agreeable scenario_net scenario_registry initial).2 = [record_A].
Proof. vm_compute. reflexivity. Qed.

(** A [null] body fails the guard and is passed over; a body that is a
    number makes [in] raise; a [null] wind speed makes the
    multiplication raise. *)
Example null_body_is_skipped :
  collect (fun _ => Body PNone) city_A initial =
  (Ok tt, printed [Fetching "A"] initial).
Proof. vm_compute. reflexivity. Qed.

Example number_body_raises :
  (collect (fun _ => Body (PInt 7)) city_A initial).1 = Raise TypeError.
Proof. vm_compute. reflexivity. Qed.

Example null_wind_speed_raises :
  (collect (fun _ => Body (payload (PInt 15) (PInt 50) PNone (PInt 0)))
           city_A initial).1 = Raise TypeError.
Proof. vm_compute. reflexivity. Qed.

(** The arithmetic is binary64 arithmetic: halving is exact here, the
    subtraction rounds to the nearest float. *)
Example feels_like_rounds :
  (w ← py_mul_float (PInt 1) 0.5; py_sub_float (PFloat 1e16) w) = Ok 1e16%float.
Proof. vm_compute. reflexivity. Qed.

Example temperatures_10_20_30 :
  console (summary_statistics [row "A" 10; row "B" 20; row "C" 30] initial).2 =
  [SummaryHeader; AverageTemperature;
   HighestTemperature (Int64 30) "C"; LowestTemperature (Int64 10) "A";
   AverageHumidity; AverageWindSpeed].
Proof. vm_compute. reflexivity. Qed.

(** ** The order of floats *)

Ltac sf_cases :=
  repeat match goal with
  | H : context [Z.compare ?a ?b] |- _ => destruct (Z.compare_spec a b); subst
  | |- context [Z.compare ?a ?b] => destruct (Z.compare_spec a b); subst
  | H : context [Pos.compare_cont Eq ?a ?b] |- _ =>
      change (Pos.compare_cont Eq a b) with (Pos.compare a b) in H;
      destruct (Pos.compare_spec a b); subst
  | |- context [Pos.compare_cont Eq ?a ?b] =>
      change (Pos.compare_cont Eq a b) with (Pos.compare a b);
      destruct (Pos.compare_spec a b); subst
  end; simpl in *; try reflexivity; try discriminate; try lia.

Lemma SFltb_trans (a b c : spec_float) :
  SFltb a b = true -> SFltb b c = true -> SFltb a c = true.
Proof.
  unfold SFltb, SFcompare.
  destruct a as [[]|[]| |[] ma ea], b as [[]|[]| |[] mb eb],
           c as [[]|[]| |[] mc ec];
    try discriminate; try reflexivity; intros Hab Hbc; sf_cases.
Qed.

Lemma SFltb_irrefl (a : spec_float) : SFltb a a = false.
Proof.
  unfold SFltb, SFcompare.
  destruct a as [[]|[]| |[] ma ea]; try reflexivity; sf_cases.
Qed.

(** Among numbers, what is not above [b] is below whatever is above [b]. *)
Lemma SFltb_below (b y x : spec_float) :
  y <> S754_nan -> b <> S754_nan ->
  SFltb b y = false -> SFltb b x = true -> SFltb y x = true.
Proof.
  unfold SFltb, SFcompare.
  destruct b as [[]|[]| |[] mb eb], y as [[]|[]| |[] my ey],
           x as [[]|[]| |[] mx ex];
    try discriminate; try reflexivity; try congruence;
    intros _ _ Hby Hbx; sf_cases.
Qed.

Lemma is_nan_Prim2SF (x : float) : is_nan x = false -> Prim2SF x <> S754_nan.
Proof.
  unfold is_nan. rewrite FloatAxioms.eqb_spec. intros H E. rewrite E in H. discriminate.
Qed.

(** ** First extreme entry of a column *)

Section FirstBestSpec.
Context {T : Type} (better : T -> T -> bool) (missing : T -> bool).
Hypothesis better_irrefl : forall x, better x x = false.
Hypothesis better_trans : forall x y z,
  better x y = true -> better y z = true -> better x z = true.
Hypothesis better_below : forall b y x,
  missing y = false -> missing b = false ->
  better y b = false -> better x b = true -> better x y = true.

Lemma scanned_snoc l best x :
  scanned better missing l best ->
  scanned better missing (l ++ [x])
    (keep_best better missing (length l) x best).
Proof.
  unfold keep_best. destruct (missing x) eqn:Hx.
  - destruct best as [[k v]|]; simpl.
    + intros (Hk & Hv & Hall & Hbefore). repeat split; auto.
      * rewrite lookup_app_l; [done|]. by eapply lookup_lt_Some.
      * intros j y Hj Hy. apply lookup_snoc_Some in Hj as [[_ Hj]|[_ <-]].
        -- eauto. -- congruence.
      * intros j y Hjk Hj Hy. apply lookup_snoc_Some in Hj as [[_ Hj]|[_ <-]].
        -- eauto. -- congruence.
    + intros Hall. apply Forall_app. split; [done|]. by constructor.
  - destruct best as [[k v]|]; simpl.
    + intros (Hk & Hv & Hall & Hbefore).
      assert (Hlt : (k < length l)%nat) by by eapply lookup_lt_Some.
      destruct (better x v) eqn:Hxv; simpl.
      * repeat split; auto.
        -- apply list_lookup_middle; done.
        -- intros j y Hj Hy. apply lookup_snoc_Some in Hj as [[_ Hj]|[_ <-]].
           ++ destruct (better y x) eqn:Hyx; [|done].
              pose proof (better_trans y x v Hyx Hxv) as Hyv.
              rewrite (Hall j y Hj Hy) in Hyv. discriminate.
           ++ apply better_irrefl.
        -- intros j y Hjl Hj Hy. apply lookup_snoc_Some in Hj as [[_ Hj]|[? _]];
             [|lia].
           eapply better_below; eauto.
      * repeat split; auto.
        -- rewrite lookup_app_l; done.
        -- intros j y Hj Hy. apply lookup_snoc_Some in Hj as [[_ Hj]|[_ <-]];
             eauto.
        -- intros j y Hjk Hj Hy. apply lookup_snoc_Some in Hj as [[_ Hj]|[? _]];
             [eauto|lia].
    + intros Hall. repeat split; auto.
      * apply list_lookup_middle; done.
      * intros j y Hj Hy. apply lookup_snoc_Some in Hj as [[_ Hj]|[_ <-]].
        -- apply list_elem_of_lookup_2 in Hj.
           rewrite Forall_forall in Hall. apply Hall in Hj. congruence.
        -- apply better_irrefl.
      * intros j y Hjl Hj Hy. apply lookup_snoc_Some in Hj as [[_ Hj]|[? _]];
          [|lia].
        apply list_elem_of_lookup_2 in Hj.
        rewrite Forall_forall in Hall. apply Hall in Hj. congruence.
Qed.

Lemma scanned_first_best_from suf : forall pre best,
  scanned better missing pre best ->
  scanned better missing (pre ++ suf)
    (first_best_from better missing (length pre) best suf).
Proof.
  induction suf as [|x suf IH]; intros pre best Hinv; simpl.
  - by rewrite app_nil_r.
  - replace (pre ++ x :: suf) with ((pre ++ [x]) ++ suf)
      by by rewrite <- app_assoc.
    replace (S (length pre)) with (length (pre ++ [x]))
      by (rewrite length_app; simpl; lia).
    apply IH. by apply scanned_snoc.
Qed.

Lemma first_best_scanned l :
  scanned better missing l (first_best better missing l).
Proof.
  apply (scanned_first_best_from l [] None). constructor.
Qed.

Lemma first_best_Some l k v :
  first_best better missing l = Some (k, v) -> first_extreme better missing l k v.
Proof. intros H. pose proof (first_best_scanned l) as Hs. by rewrite H in Hs. Qed.

Lemma first_best_None l :
  first_best better missing l = None -> Forall (fun x => missing x = true) l.
Proof. intros H. pose proof (first_best_scanned l) as Hs. by rewrite H in Hs. Qed.
End FirstBestSpec.

Lemma Z_gt_irrefl x : Z_gt x x = false.
Proof. unfold Z_gt. lia. Qed.

Lemma Z_gt_trans x y z : Z_gt x y = true -> Z_gt y z = true -> Z_gt x z = true.
Proof. unfold Z_gt. lia. Qed.

Lemma Z_gt_below b y x :
  never y = false -> never b = false ->
  Z_gt y b = false -> Z_gt x b = true -> Z_gt x y = true.
Proof. unfold Z_gt. lia. Qed.

Lemma Z_lt_irrefl x : Z_lt x x = false.
Proof. unfold Z_lt. lia. Qed.

Lemma Z_lt_trans x y z : Z_lt x y = true -> Z_lt y z = true -> Z_lt x z = true.
Proof. unfold Z_lt. lia. Qed.

Lemma Z_lt_below b y x :
  never y = false -> never b = false ->
  Z_lt y b = false -> Z_lt x b = true -> Z_lt x y = true.
Proof. unfold Z_lt. lia. Qed.

Lemma float_lt_irrefl x : float_lt x x = false.
Proof. unfold float_lt. rewrite FloatAxioms.ltb_spec. apply SFltb_irrefl. Qed.

Lemma float_lt_trans x y z :
  float_lt x y = true -> float_lt y z = true -> float_lt x z = true.
Proof. unfold float_lt. rewrite !FloatAxioms.ltb_spec. apply SFltb_trans. Qed.

Lemma float_gt_irrefl x : float_gt x x = false.
Proof. apply float_lt_irrefl. Qed.

Lemma float_gt_trans x y z :
  float_gt x y = true -> float_gt y z = true -> float_gt x z = true.
Proof. unfold float_gt. intros Hxy Hyz. by apply (float_lt_trans z y x). Qed.

Lemma float_gt_below b y x :
  is_nan y = false -> is_nan b = false ->
  float_gt y b = false -> float_gt x b = true -> float_gt x y = true.
Proof.
  unfold float_gt. rewrite !FloatAxioms.ltb_spec. intros Hy Hb.
  apply SFltb_below; by apply is_nan_Prim2SF.
Qed.

(** Mirror image of [SFltb_below]. *)
Lemma SFltb_above (b y x : spec_float) :
  y <> S754_nan -> b <> S754_nan ->
  SFltb y b = false -> SFltb x b = true -> SFltb x y = true.
Proof.
  unfold SFltb, SFcompare.
  destruct b as [[]|[]| |[] mb eb], y as [[]|[]| |[] my ey],
           x as [[]|[]| |[] mx ex];
    try discriminate; try reflexivity; try congruence;
    intros _ _ Hyb Hxb; sf_cases.
Qed.

Lemma float_lt_below b y x :
  is_nan y = false -> is_nan b = false ->
  float_lt y b = false -> float_lt x b = true -> float_lt x y = true.
Proof.
  unfold float_lt. rewrite !FloatAxioms.ltb_spec. intros Hy Hb.
  apply SFltb_above; by apply is_nan_Prim2SF.
Qed.

(** ** Extremes of a column, read on its cells *)

Lemma first_extreme_fmap {A B} (f : A -> B)
    (better : A -> A -> bool) (missing : A -> bool)
    (better' : B -> B -> bool) (missing' : B -> bool) l k v :
  (forall x y, better' (f x) (f y) = better x y) ->
  (forall x, missing' (f x) = missing x) ->
  first_extreme better missing l k v ->
  first_extreme better' missing' (f <$> l) k (f v).
Proof.
  intros Hb Hm (Hk & Hv & Hall & Hbefore). repeat split.
  - by rewrite list_lookup_fmap, Hk.
  - by rewrite Hm.
  - intros j y Hj Hy. rewrite list_lookup_fmap in Hj.
    destruct (l !! j) as [x|] eqn:Hx; simplify_eq/=.
    rewrite Hb. rewrite Hm in Hy. eauto.
  - intros j y Hjk Hj Hy. rewrite list_lookup_fmap in Hj.
    destruct (l !! j) as [x|] eqn:Hx; simplify_eq/=.
    rewrite Hb. rewrite Hm in Hy. eauto.
Qed.

Lemma idxmax_first_max c k v :
  idxmax c = Some (k, v) -> first_max (cells c) k v.
Proof.
  destruct c as [l|l]; simpl; intros H;
    apply fmap_Some in H as ([k' v'] & Hbest & [= -> ->]).
  - apply (first_best_Some _ _ Z_gt_irrefl Z_gt_trans Z_gt_below) in Hbest.
    by eapply first_extreme_fmap, Hbest.
  - apply (first_best_Some _ _ float_gt_irrefl float_gt_trans float_gt_below) in Hbest.
    by eapply first_extreme_fmap, Hbest.
Qed.

Lemma idxmin_first_min c k v :
  idxmin c = Some (k, v) -> first_min (cells c) k v.
Proof.
  destruct c as [l|l]; simpl; intros H;
    apply fmap_Some in H as ([k' v'] & Hbest & [= -> ->]).
  - apply (first_best_Some _ _ Z_lt_irrefl Z_lt_trans Z_lt_below) in Hbest.
    by eapply first_extreme_fmap, Hbest.
  - apply (first_best_Some _ _ float_lt_irrefl float_lt_trans float_lt_below) in Hbest.
    by eapply first_extreme_fmap, Hbest.
Qed.

(** A column with a cell that is not NaN has both extremes. *)
Lemma idxmax_is_Some c n :
  n ∈ cells c -> number_missing n = false -> is_Some (idxmax c).
Proof.
  intros Hn Hm. destruct (idxmax c) as [r|] eqn:E; [by eexists|exfalso].
  destruct c as [l|l]; simpl in *; apply fmap_None in E;
    apply list_elem_of_fmap in Hn as (x & -> & Hx).
  - apply (first_best_None _ _ Z_gt_irrefl Z_gt_trans Z_gt_below) in E.
    rewrite Forall_forall in E. by apply E in Hx.
  - apply (first_best_None _ _ float_gt_irrefl float_gt_trans float_gt_below) in E.
    rewrite Forall_forall in E. apply E in Hx. simpl in Hm. congruence.
Qed.

Lemma idxmin_is_Some c n :
  n ∈ cells c -> number_missing n = false -> is_Some (idxmin c).
Proof.
  intros Hn Hm. destruct (idxmin c) as [r|] eqn:E; [by eexists|exfalso].
  destruct c as [l|l]; simpl in *; apply fmap_None in E;
    apply list_elem_of_fmap in Hn as (x & -> & Hx).
  - apply (first_best_None _ _ Z_lt_irrefl Z_lt_trans Z_lt_below) in E.
    rewrite Forall_forall in E. by apply E in Hx.
  - apply (first_best_None _ _ float_lt_irrefl float_lt_trans float_lt_below) in E.
    rewrite Forall_forall in E. apply E in Hx. simpl in Hm. congruence.
Qed.

(** ** One iteration of the loop *)

Ltac prog_simpl :=
  unfold mbind, prog_bind, mret, prog_ret, lift, print, append, savefig,
    get_weather_data, exit, printed, recorded; simpl.

Lemma collect_unfold net city_info st :
  collect net city_info st = collect_cases net city_info st.
Proof.
  unfold collect, collect_cases, fetch_weather_data.
  destruct (net city_info) as [e|json]; prog_simpl.
  - by rewrite <- app_assoc.
  - destruct (has_current json) as [[]|e]; prog_simpl; try done.
    destruct (py_getitem json "current") as [w|e]; simpl; try done.
    destruct (build_weather_info city_info w) as [r|e]; simpl; try done.
    by rewrite <- app_assoc.
Qed.

Lemma collect_all_cons net city_info registry st :
  collect_all net (city_info :: registry) st =
  match collect net city_info st with
  | (Ok _, st') => collect_all net registry st'
  | (Raise e, st') => (Raise e, st')
  end.
Proof.
  unfold collect_all; simpl. unfold mbind at 1, prog_bind.
  by destruct (collect net city_info st) as [[[]|e] st'].
Qed.

Lemma collect_all_app net pre suf st :
  collect_all net (pre ++ suf) st =
  match collect_all net pre st with
  | (Ok _, st') => collect_all net suf st'
  | (Raise e, st') => (Raise e, st')
  end.
Proof.
  revert st. induction pre as [|c pre IH]; intros st; [done|].
  simpl. rewrite !collect_all_cons.
  destruct (collect net c st) as [[[]|e] st']; [apply IH|done].
Qed.

(** A property of every record the builder makes holds of every entry
    of the table, however the run ends. *)
Lemma collect_preserves (P : weather_info -> Prop) net city_info st :
  (forall c w r, build_weather_info c w = Ok r -> P r) ->
  Forall P (weather_data st) ->
  Forall P (weather_data (collect net city_info st).2).
Proof.
  intros Hbuild Hst. rewrite collect_unfold. unfold collect_cases.
  destruct (net city_info) as [e|json]; [done|].
  destruct (has_current json) as [[]|e]; try done.
  destruct (py_getitem json "current") as [w|e]; simpl; try done.
  destruct (build_weather_info city_info w) as [r|e] eqn:Hr; simpl; try done.
  apply Forall_app. split; [done|]. constructor; [|done]. eauto.
Qed.

Lemma collect_all_preserves (P : weather_info -> Prop) net registry :
  (forall c w r, build_weather_info c w = Ok r -> P r) ->
  forall st, Forall P (weather_data st) ->
  Forall P (weather_data (collect_all net registry st).2).
Proof.
  intros Hbuild. induction registry as [|c registry IH]; intros st Hst; [done|].
  rewrite collect_all_cons.
  pose proof (collect_preserves P net c st Hbuild Hst) as Hc.
  destruct (collect net c st) as [[[]|e] st']; simpl in *; [by apply IH|done].
Qed.

(** What is true of every record the builder makes. *)
Lemma build_weather_info_fields city_info current r :
  build_weather_info city_info current = Ok r ->
  exists fields,
    current = PDict fields /\
    City r = name city_info /\
    Temperature r = default (PInt 0) (fields !! "temperature_2m") /\
    Humidity r = default (PInt 0) (fields !! "relative_humidity_2m") /\
    Wind_Speed r = default (PInt 0) (fields !! "wind_speed_10m") /\
    Weather_Code r = default (PInt 0) (fields !! "weather_code") /\
    get_weather_description (Weather_Code r) = Ok (Weather r) /\
    Latitude r = lat city_info /\ Longitude r = lon city_info /\
    exists t w, as_float (Temperature r) = Ok t /\
                as_float (Wind_Speed r) = Ok w /\
                Feels_Like r = (t - w * 0.5)%float.
Proof.
  unfold build_weather_info.
  destruct current as [| | | | | |fields]; try discriminate; simpl.
  intros H. exists fields. split; [done|].
  destruct (get_weather_description _) as [label|] eqn:Hlabel;
    simpl in H; [|discriminate].
  unfold py_mul_float, py_sub_float in H.
  destruct (as_float (default (PInt 0) (fields !! "wind_speed_10m")))
    as [w|] eqn:Hw; simpl in H; [|discriminate].
  destruct (as_float (default (PInt 0) (fields !! "temperature_2m")))
    as [t|] eqn:Ht; simpl in H; [|discriminate].
  injection H as <-; simpl. repeat split; try done. by exists t, w.
Qed.

(** ** The script after the loop *)

Lemma run_unfold mpl net registry st :
  run mpl net registry st = run_cases mpl net registry st.
Proof.
  unfold run, run_cases. unfold mbind at 1, prog_bind. unfold print at 1.
  unfold mbind at 1, prog_bind. fold (printed [Banner] st).
  destruct (collect_all net registry (printed [Banner] st)) as [[[]|e] st1];
    [|done].
  unfold mbind at 1, prog_bind, get_weather_data. simpl.
  unfold mbind at 1, prog_bind.
  destruct (bool_decide (weather_data st1 = [])); [done|].
  unfold mret, prog_ret.
  unfold mbind at 1, prog_bind. unfold print at 1.
  unfold mbind at 1, prog_bind. unfold lift at 1.
  destruct (render_dashboard mpl (weather_data st1)) as [fig|e]; [|done].
  unfold mbind at 1, prog_bind. unfold savefig at 1. simpl.
  destruct (saves mpl fig); [|done].
  unfold mbind at 1, prog_bind. unfold print at 1. simpl.
  unfold mbind at 1, prog_bind.
  unfold printed, saved; simpl.
  destruct (summary_statistics _ _) as [[[]|e] st2]; done.
Qed.

Lemma summary_statistics_ok df temperature humidity wind_speed highest lowest st :
  to_column (Temperature <$> df) = Ok temperature ->
  to_column (Humidity <$> df) = Ok humidity ->
  to_column (Wind_Speed <$> df) = Ok wind_speed ->
  city_at df (idxmax temperature) = Ok highest ->
  city_at df (idxmin temperature) = Ok lowest ->
  summary_statistics df st = (Ok tt, printed (summary_lines highest lowest) st).
Proof.
  intros Ht Hh Hw Hhi Hlo. unfold summary_statistics.
  rewrite Ht, Hh, Hw. prog_simpl. rewrite Hhi; simpl. rewrite Hlo; simpl.
  by rewrite <- !app_assoc.
Qed.

(** The summary and the rendering leave the table alone and write no
    file of their own. *)
Lemma summary_statistics_state df st :
  weather_data (summary_statistics df st).2 = weather_data st /\
  files (summary_statistics df st).2 = files st.
Proof.
  unfold summary_statistics. prog_simpl.
  destruct (to_column (Temperature <$> df)) as [temperature|]; simpl; [|done].
  destruct (city_at df (idxmax temperature)); simpl; [|done].
  destruct (city_at df (idxmin temperature)); simpl; [|done].
  destruct (to_column (Humidity <$> df)); simpl; [|done].
  destruct (to_column (Wind_Speed <$> df)); simpl; done.
Qed.

Lemma run_weather_data mpl net registry st :
  weather_data (run mpl net registry st).2 =
  weather_data (collect_all net registry (printed [Banner] st)).2.
Proof.
  rewrite run_unfold. unfold run_cases.
  destruct (collect_all net registry (printed [Banner] st)) as [[[]|e] st1];
    [|done].
  simpl. destruct (bool_decide _); [done|].
  destruct (render_dashboard mpl _) as [fig|e]; [|done].
  destruct (saves mpl fig); [|done].
  match goal with |- context [summary_statistics ?d ?s] =>
    pose proof (summary_statistics_state d s) as [Hd _];
    destruct (summary_statistics d s) as [[[]|e] st2] end; simpl in *; done.
Qed.

Lemma to_column_length vals c :
  to_column vals = Ok c -> length (cells c) = length vals.
Proof.
  unfold to_column. destruct (mapM int_cell vals) as [l|] eqn:Hi.
  - intros [= <-]. simpl. rewrite length_fmap.
    symmetry. by eapply length_mapM.
  - destruct (mapM float_cell vals) as [l|] eqn:Hf; [|done].
    intros [= <-]. simpl. rewrite length_fmap.
    symmetry. by eapply length_mapM.
Qed.

(** * The claims *)

(** ** Weather code translator *)

Lemma weather_codes_keys_NoDup : NoDup weather_codes_items.*1.
Proof. apply (bool_decide_unpack _). vm_compute. exact I. Qed.

Lemma get_weather_description_int (code : Z) :
  get_weather_description (PInt code) =
  Ok (default "Unknown"%string (weather_codes !! code)).
Proof. reflexivity. Qed.

(** C4. The translator is total on integer codes: a code of the table
    gets the table's string, any other integer gets "Unknown", and no
    integer code makes it raise. *)
Theorem get_weather_description_total (code : Z) :
  (forall label, (code, label) ∈ weather_codes_items ->
     get_weather_description (PInt code) = Ok label) /\
  (code ∉ weather_codes_items.*1 ->
     get_weather_description (PInt code) = Ok "Unknown"%string) /\
  (exists label, get_weather_description (PInt code) = Ok label).
Proof.
  rewrite get_weather_description_int. repeat split.
  - intros label Hin. unfold weather_codes.
    apply (elem_of_list_to_map (M := gmap Z)) in Hin;
      [|apply weather_codes_keys_NoDup].
    by rewrite Hin.
  - intros Hnotin. unfold weather_codes.
    apply (not_elem_of_list_to_map (M := gmap Z)) in Hnotin.
    by rewrite Hnotin.
  - by eexists.
Qed.

Lemma get_weather_description_total_witness :
  get_weather_description (PInt 63) = Ok "Moderate rain"%string /\
  get_weather_description (PInt 64) = Ok "Unknown"%string.
Proof.
  split.
  - apply (proj1 (get_weather_description_total 63)).
    apply (bool_decide_unpack _). vm_compute. exact I.
  - apply (proj1 (proj2 (get_weather_description_total 64))).
    apply (bool_decide_unpack _). vm_compute. exact I.
Defined.

(** C5, as stated: two codes are labelled "Foggy" and three
    "Thunderstorm with hail".  The table has only two of the latter. *)
Lemma thunderstorm_with_hail_not_three :
  ~ (size (codes_labelled "Foggy") = 2%nat /\
     size (codes_labelled "Thunderstorm with hail") = 3%nat).
Proof. vm_compute. intros [_ H]. discriminate H. Qed.

(** C5, amended. Codes 45 and 48 are the two codes labelled "Foggy";
    codes 96 and 99 are the two codes labelled "Thunderstorm with
    hail" (95 is plain "Thunderstorm"). *)
Theorem many_to_one_labels :
  codes_labelled "Foggy" = {[ 45; 48 ]} /\
  codes_labelled "Thunderstorm with hail" = {[ 96; 99 ]} /\
  size (codes_labelled "Foggy") = 2%nat /\
  size (codes_labelled "Thunderstorm with hail") = 2%nat /\
  get_weather_description (PInt 95) = Ok "Thunderstorm"%string.
Proof. repeat split; vm_compute; reflexivity. Qed.

(** ** Record builder *)


Lemma has_current_dict data :
  has_current (PDict data) = Ok (bool_decide (is_Some (data !! "current"))).
Proof.
  unfold has_current; simpl. case_bool_decide as Hempty; simpl; [|done].
  subst. by rewrite lookup_empty, bool_decide_false by by intros [? ?].
Qed.

(** *** Integers below 2^53 are floats *)

Lemma digits2_pos_size m : digits2_pos m = Pos.size m.
Proof. induction m; simpl; congruence. Qed.

Lemma digits2_pos_iter_xO k m :
  digits2_pos (Pos.iter xO m k) = (digits2_pos m + k)%positive.
Proof.
  induction k using Pos.peano_ind.
  - simpl. lia.
  - rewrite Pos.iter_succ. simpl. rewrite IHk. lia.
Qed.

Lemma iter_xO_value k m : Z.pos (Pos.iter xO m k) = Z.pos m * 2 ^ Z.pos k.
Proof.
  induction k using Pos.peano_ind.
  - simpl. lia.
  - rewrite Pos.iter_succ, Pos2Z.inj_xO, IHk, Pos2Z.inj_succ, Z.pow_succ_r
      by lia.
    lia.
Qed.

Lemma digits2_pos_bound m : Z.pos m < 2 ^ 53 -> Z.pos (digits2_pos m) <= 53.
Proof.
  intros Hm. rewrite digits2_pos_size.
  destruct (Z.le_gt_cases (Z.pos (Pos.size m)) 53) as [|Hgt]; [done|].
  exfalso. pose proof (Pos.size_le m) as Hle.
  assert (2 ^ 54 <= Z.pos (2 ^ Pos.size m)).
  { rewrite Pos2Z.inj_pow. apply Z.pow_le_mono_r; lia. }
  lia.
Qed.

(** A mantissa of 53 digits with a small exponent is not rounded. *)
Lemma binary_round_aux_canonical s m e :
  Z.pos (digits2_pos m) = 53 -> - 52 <= e <= 0 ->
  binary_round_aux prec emax s (Z.pos m) e loc_Exact = S754_finite s m e.
Proof.
  intros Hd He.
  assert (Hshift : fexp prec emax (Zdigits2 (Z.pos m) + e) - e = 0).
  { unfold fexp, emin, prec, emax, Zdigits2. rewrite Hd. lia. }
  unfold binary_round_aux, shr_fexp. rewrite Hshift.
  cbn [shr shr_record_of_loc shr_m loc_of_shr_record round_nearest_even].
  rewrite Hshift. cbn [shr shr_m].
  destruct (e <=? emax - prec) eqn:Hle; [done|].
  unfold emax, prec in Hle. lia.
Qed.

Lemma binary_round_small s m :
  Z.pos m < 2 ^ 53 ->
  exists m' k, 0 <= k <= 52 /\ Z.pos m' = Z.pos m * 2 ^ k /\
    Z.pos (digits2_pos m') = 53 /\
    binary_round prec emax s m 0 = S754_finite s m' (- k).
Proof.
  intros Hm. pose proof (digits2_pos_bound m Hm) as Hd.
  unfold binary_round, shl_align.
  assert (Hfexp : fexp prec emax (Z.pos (digits2_pos m) + 0) - 0 =
                  Z.pos (digits2_pos m) - 53).
  { unfold fexp, emin, prec, emax. lia. }
  rewrite Hfexp.
  destruct (Z.pos (digits2_pos m) - 53) as [|p|p] eqn:Hk; [|lia|].
  - exists m, 0. split; [lia|]. split; [lia|]. split; [lia|].
    apply binary_round_aux_canonical; lia.
  - exists (Pos.iter xO m p), (Z.pos p).
    assert (Hdigits : Z.pos (digits2_pos (Pos.iter xO m p)) = 53).
    { rewrite digits2_pos_iter_xO. lia. }
    split; [lia|]. split; [apply iter_xO_value|]. split; [done|].
    replace (fexp prec emax (Z.pos (digits2_pos m) + 0))
      with (- Z.pos p) by (unfold fexp, emin, prec, emax; lia).
    apply binary_round_aux_canonical; [done|lia].
Qed.

Lemma valid_canonical s m e :
  Z.pos (digits2_pos m) = 53 -> - 52 <= e <= 0 ->
  valid_binary (S754_finite s m e) = true.
Proof.
  intros Hd He.
  unfold SpecFloat.valid_binary, bounded, canonical_mantissa, fexp, emin,
    prec, emax.
  rewrite Hd. apply andb_true_intro.
  split; [apply Z.eqb_eq|apply Z.leb_le]; lia.
Qed.

Lemma scaled_value (m m' : positive) k :
  0 <= k -> Z.pos m' = Z.pos m * 2 ^ k ->
  (inject_Z (Z.pos m') * 2 ^ (- k) == inject_Z (Z.pos m))%Q.
Proof.
  intros Hk ->. rewrite inject_Z_mult, Zpower_Qpower, Qpower_opp by done.
  change (inject_Z 2) with 2%Q.
  rewrite <- Qmult_assoc, Qmult_inv_r, Qmult_1_r; [done|].
  by apply Qpower_not_0.
Qed.

(** The float of an integer below 2^53 stands for that integer. *)
Lemma int_to_float_exact z :
  Z.abs z < 2 ^ 53 ->
  exists q,
    int_to_float z = Ok (SF2Prim (binary_normalize prec emax z 0 false)) /\
    float_value (SF2Prim (binary_normalize prec emax z 0 false)) = Some q /\
    (q == inject_Z z)%Q.
Proof.
  intros Hz. unfold int_to_float, float_value.
  destruct z as [|m|m]; simpl binary_normalize.
  - exists 0%Q. by rewrite Prim2SF_SF2Prim.
  - destruct (binary_round_small false m) as (m' & k & Hk & Hm' & Hd & ->);
      [lia|].
    rewrite Prim2SF_SF2Prim by (apply valid_canonical; [done|lia]).
    eexists. split; [done|]. split; [done|].
    apply scaled_value; [lia|done].
  - destruct (binary_round_small true m) as (m' & k & Hk & Hm' & Hd & ->);
      [lia|].
    rewrite Prim2SF_SF2Prim by (apply valid_canonical; [done|lia]).
    eexists. split; [done|]. split; [done|].
    change (inject_Z (Z.neg m)) with (- inject_Z (Z.pos m))%Q.
    rewrite <- (scaled_value m m' k) by (lia || done). ring.
Qed.

Lemma as_float_converts v f : as_float v = Ok f -> converts_to v f.
Proof.
  destruct v as [|b|z|x|s|l|d]; simpl; try done.
  - by intros [= <-].
  - intros Hf. split.
    + unfold int_to_float in Hf.
      destruct (binary_normalize prec emax z 0 false); congruence.
    + intros Hz. destruct (int_to_float_exact z Hz) as (q & Hexact & Hq & Hqz).
      rewrite Hexact in Hf. injection Hf as <-. by exists q.
  - by intros [= <-].
Qed.

(** C2, as stated: the feels-like value is exactly the temperature
    minus half the wind speed, for every magnitude.  At a temperature
    of 10^16 and a wind of 1 that number is 9999999999999999.5; the
    record carries 10^16, the temperature itself, although the wind is
    not zero. *)
Lemma feels_like_is_rounded :
  ~ Forall exact_feels_like
      (weather_data (run agreeable large_net scenario_registry initial).2).
Proof.
  rewrite run_weather_data. intros Hall.
  assert (Htable :
    weather_data (collect_all large_net scenario_registry
                    (printed [Banner] initial)).2 =
    [{| City := "A"; Temperature := PInt (10 ^ 16); Humidity := PInt 50;
        Wind_Speed := PInt 1; Weather_Code := PInt 0;
        Weather := "Clear sky"; Latitude := 0; Longitude := 0;
        Feels_Like := 1e16 |}]) by (vm_compute; reflexivity).
  rewrite Htable in Hall. apply Forall_cons in Hall as [Hexact _].
  vm_compute in Hexact. discriminate Hexact.
Qed.

(** C2, amended. Every record of the table has its feels-like value
    equal to the binary64 difference of its temperature and the
    binary64 product of its wind speed by 0.5, both rounded to nearest:
    floats enter the arithmetic as they are and integers as the nearest
    float, which below 2^53 is the integer itself.  This holds for
    every sign and magnitude of the two. *)
Theorem feels_like_formula mpl net registry r :
  r ∈ weather_data (run mpl net registry initial).2 ->
  exists t w,
    converts_to (Temperature r) t /\
    converts_to (Wind_Speed r) w /\
    Feels_Like r = (t - w * 0.5)%float.
Proof.
  rewrite run_weather_data. revert r. apply Forall_forall.
  apply collect_all_preserves; [|constructor].
  intros c w r Hr. apply build_weather_info_fields in Hr.
  destruct Hr as (_ & _ & _ & _ & _ & _ & _ & _ & _ & _ & t & w' & Ht & Hw & Hf).
  exists t, w'. auto using as_float_converts.
Qed.

Lemma feels_like_formula_witness :
  exists t w,
    converts_to (Temperature record_A) t /\
    converts_to (Wind_Speed record_A) w /\
    Feels_Like record_A = (t - w * 0.5)%float.
Proof.
  apply (feels_like_formula agreeable scenario_net scenario_registry record_A).
  rewrite run_weather_data. vm_compute. apply list_elem_of_here.
Defined.

(** At 15 degrees and a wind of 4 the two integers are floats and the
    record carries 15 - 4 * 0.5 = 13. *)
Example feels_like_15_4 :
  converts_to (PInt 15) 15%float /\ converts_to (PInt 4) 4%float /\
  Feels_Like record_A = (15 - 4 * 0.5)%float /\
  exists q, float_value (Feels_Like record_A) = Some q /\ (q == 13)%Q.
Proof.
  split; [|split; [|split]].
  - split; [vm_compute; reflexivity|]. intros _. eexists.
    split; [vm_compute; reflexivity|]. reflexivity.
  - split; [vm_compute; reflexivity|]. intros _. eexists.
    split; [vm_compute; reflexivity|]. reflexivity.
  - vm_compute. reflexivity.
  - eexists. split; [vm_compute; reflexivity|]. reflexivity.
Qed.

(** C10. In every record of the table the label is the translation of
    the stored code. *)
Theorem label_agrees_with_code mpl net registry r :
  r ∈ weather_data (run mpl net registry initial).2 ->
  get_weather_description (Weather_Code r) = Ok (Weather r).
Proof.
  rewrite run_weather_data. revert r. apply Forall_forall.
  apply collect_all_preserves; [|constructor].
  intros c w r Hr. apply build_weather_info_fields in Hr.
  destruct Hr as (_ & _ & _ & _ & _ & _ & _ & Hlabel & _). exact Hlabel.
Qed.

Lemma label_agrees_with_code_witness :
  get_weather_description (Weather_Code record_A) = Ok (Weather record_A).
Proof.
  apply (label_agrees_with_code agreeable scenario_net scenario_registry record_A).
  vm_compute. apply list_elem_of_here.
Defined.



(** ** Cities that contribute nothing *)

(** C7. A city whose body has no [current] entry is passed over
    without any message beyond the progress line; a city whose request
    raised gets a message with its name.  Neither adds a record, and in
    both cases the loop goes on with the cities that follow. *)
Theorem skipped_cities net city_info rest st :
  (forall data,
     net city_info = Body (PDict data) -> data !! "current" = None ->
     let st' := printed [Fetching (name city_info)] st in
     collect net city_info st = (Ok tt, st') /\
     weather_data st' = weather_data st /\
     collect_all net (city_info :: rest) st = collect_all net rest st') /\
  (forall e,
     net city_info = RequestException e ->
     let st' := printed [Fetching (name city_info);
                         FetchFailed (name city_info) e] st in
     collect net city_info st = (Ok tt, st') /\
     weather_data st' = weather_data st /\
     collect_all net (city_info :: rest) st = collect_all net rest st').
Proof.
  split.
  - intros data Hnet Hcurrent st'.
    assert (Hstep : collect net city_info st = (Ok tt, st')).
    { rewrite collect_unfold. unfold collect_cases.
      by rewrite Hnet, has_current_dict, Hcurrent. }
    repeat split; [done|]. by rewrite collect_all_cons, Hstep.
  - intros e Hnet st'.
    assert (Hstep : collect net city_info st = (Ok tt, st')).
    { rewrite collect_unfold. unfold collect_cases. by rewrite Hnet. }
    repeat split; [done|]. by rewrite collect_all_cons, Hstep.
Qed.

Lemma skipped_cities_witness :
  collect_all sparse_net [city_B; city_A] initial =
    collect_all sparse_net [city_A] (printed [Fetching "B"] initial) /\
  collect_all scenario_net [city_B; city_A] initial =
    collect_all scenario_net [city_A]
      (printed [Fetching "B"; FetchFailed "B" "connection refused"] initial).
Proof.
  split.
  - exact (proj2 (proj2 (proj1
      (skipped_cities sparse_net city_B [city_A] initial)
      {[ "latitude" := PFloat 1 ]} eq_refl eq_refl))).
  - exact (proj2 (proj2 (proj2
      (skipped_cities scenario_net city_B [city_A] initial)
      "connection refused"%string eq_refl))).
Defined.

(** ** The table follows the registry *)













Example scenario_successes :
  name <$> filter (succeeded scenario_net) scenario_registry = ["A"]%string.
Proof. vm_compute. reflexivity. Qed.

(** ** Summary statistics *)

Example tie_table_summary :
  console (summary_statistics tie_table initial).2 =
  [SummaryHeader; AverageTemperature;
   HighestTemperature (Int64 30) "B"; LowestTemperature (Int64 10) "A";
   AverageHumidity; AverageWindSpeed].
Proof. vm_compute. reflexivity. Qed.

Lemma city_at_idxmax df temperature n :
  to_column (Temperature <$> df) = Ok temperature ->
  n ∈ cells temperature -> number_missing n = false ->
  exists k v r,
    idxmax temperature = Some (k, v) /\ df !! k = Some r /\
    city_at df (idxmax temperature) = Ok (v, City r).
Proof.
  intros Hcol Hn Hm.
  destruct (idxmax_is_Some temperature n Hn Hm) as [[k v] Hk].
  pose proof (idxmax_first_max _ _ _ Hk) as (Hcell & _).
  apply lookup_lt_Some in Hcell.
  rewrite (to_column_length _ _ Hcol), length_fmap in Hcell.
  apply lookup_lt_is_Some_2 in Hcell as [r Hr].
  exists k, v, r. rewrite Hk. simpl. by rewrite Hr.
Qed.

Lemma city_at_idxmin df temperature n :
  to_column (Temperature <$> df) = Ok temperature ->
  n ∈ cells temperature -> number_missing n = false ->
  exists k v r,
    idxmin temperature = Some (k, v) /\ df !! k = Some r /\
    city_at df (idxmin temperature) = Ok (v, City r).
Proof.
  intros Hcol Hn Hm.
  destruct (idxmin_is_Some temperature n Hn Hm) as [[k v] Hk].
  pose proof (idxmin_first_min _ _ _ Hk) as (Hcell & _).
  apply lookup_lt_Some in Hcell.
  rewrite (to_column_length _ _ Hcol), length_fmap in Hcell.
  apply lookup_lt_is_Some_2 in Hcell as [r Hr].
  exists k, v, r. rewrite Hk. simpl. by rewrite Hr.
Qed.



(** ** The run as a whole *)

Lemma printed_quiet es st :
  Forall (fun e => is_progress e = true) es -> quiet st -> quiet (printed es st).
Proof. intros Hes [Hf Hc]. split; [done|]. by apply Forall_app. Qed.

Lemma collect_quiet net city_info st :
  quiet st -> quiet (collect net city_info st).2.
Proof.
  intros Hst. rewrite collect_unfold. unfold collect_cases.
  destruct (net city_info) as [e|json]; simpl.
  { apply printed_quiet; [|done]. by repeat constructor. }
  destruct (has_current json) as [[]|e]; simpl;
    try (apply printed_quiet; [by repeat constructor|done]).
  destruct (py_getitem json "current") as [w|e]; simpl;
    try (apply printed_quiet; [by repeat constructor|done]).
  destruct (build_weather_info city_info w) as [r|e]; simpl;
    try (apply printed_quiet; [by repeat constructor|done]).
Qed.

Lemma collect_all_quiet net registry :
  forall st, quiet st -> quiet (collect_all net registry st).2.
Proof.
  induction registry as [|c registry IH]; intros st Hst; [done|].
  rewrite collect_all_cons. pose proof (collect_quiet net c st Hst) as Hc.
  destruct (collect net c st) as [[[]|e] st']; simpl in *; [by apply IH|done].
Qed.

Lemma dashboard_series_columns df fig :
  dashboard_series df = Ok fig ->
  bar_cities fig = City <$> df /\
  to_column (Temperature <$> df) = Ok (bar_temperatures fig) /\
  bar_colors fig = temperature_colors (bar_temperatures fig) /\
  to_column (Humidity <$> df) = Ok (scatter_humidity fig) /\
  to_column (Wind_Speed <$> df) = Ok (line_wind_speed fig) /\
  pie_weather fig = Weather <$> df /\
  grouped_feels_like fig = Feels_Like <$> df.
Proof.
  unfold dashboard_series.
  destruct (to_column (Temperature <$> df)); simpl; [|done].
  destruct (to_column (Humidity <$> df)); simpl; [|done].
  destruct (to_column (Wind_Speed <$> df)); simpl; [|done].
  by intros [= <-].
Qed.

Lemma idxmax_all_missing c :
  (forall n, n ∈ cells c -> number_missing n = true) -> idxmax c = None.
Proof.
  intros Hall. destruct (idxmax c) as [[k v]|] eqn:Hmax; [exfalso|done].
  apply idxmax_first_max in Hmax as (Hcell & Hvalue & _).
  apply list_elem_of_lookup_2, Hall in Hcell. congruence.
Qed.

(** What follows the loop on a non-empty table whose series are
    numeric. *)
Lemma run_after_loop mpl net registry st fig :
  collect_all net registry (printed [Banner] initial) = (Ok tt, st) ->
  weather_data st <> [] ->
  dashboard_series (weather_data st) = Ok fig ->
  (draws mpl fig && saves mpl fig = false ->
     run mpl net registry initial =
       (Raise RenderingError, printed [DataFetched (weather_data st)] st)) /\
  (draws mpl fig && saves mpl fig = true ->
     (forall n,
        n ∈ cells (bar_temperatures fig) -> number_missing n = false ->
        exists highest lowest,
          run mpl net registry initial =
            (Ok tt,
             printed (DataFetched (weather_data st) :: DashboardSaved ::
                      summary_lines highest lowest ++ [TaskCompleted])
                     (saved fig st))) /\
     ((forall n, n ∈ cells (bar_temperatures fig) ->
                 number_missing n = true) ->
      run mpl net registry initial =
        (Raise ValueError,
         printed [DataFetched (weather_data st); DashboardSaved;
                  SummaryHeader; AverageTemperature]
                 (saved fig st)))).
Proof.
  intros Hloop Hne Hfig.
  pose proof (dashboard_series_columns _ _ Hfig) as (_ & Ht & _ & Hh & Hw & _).
  rewrite run_unfold. unfold run_cases, render_dashboard.
  rewrite Hloop. simpl. rewrite bool_decide_false by done.
  rewrite Hfig. simpl. split.
  - intros Hfails. destruct (draws mpl fig); [|done].
    simpl in Hfails. by rewrite Hfails.
  - intros Hgoes. apply andb_prop in Hgoes as [-> ->]. split.
    + intros n Hn Hm.
      destruct (city_at_idxmax _ _ n Ht Hn Hm)
        as (hi & vhi & rhi & _ & _ & Hhi).
      destruct (city_at_idxmin _ _ n Ht Hn Hm)
        as (lo & vlo & rlo & _ & _ & Hlo).
      exists (vhi, City rhi), (vlo, City rlo).
      rewrite (summary_statistics_ok _ _ _ _ _ _ _ Ht Hh Hw Hhi Hlo).
      unfold printed, saved; simpl. do 2 f_equal.
      by rewrite <- !app_assoc.
    + intros Hall. unfold summary_statistics. prog_simpl.
      rewrite Ht. simpl. rewrite (idxmax_all_missing _ Hall). simpl.
      do 2 f_equal. by rewrite <- !app_assoc.
Qed.

(** C3, as stated: a non-empty table means a normal end.  Here A
    answers with a temperature that is not a number: the table has its
    record and, whatever the plotting library does, the run ends in an
    exception: in the plotting calls if they raise, and in the second
    line of the summary if they do not. *)
Lemma nan_temperature_does_not_end_normally :
  ~ exists mpl,
      (weather_data (run mpl nan_net scenario_registry initial).2 <> [] ->
       (run mpl nan_net scenario_registry initial).1 = Ok tt).
Proof.
  intros [mpl Hclaim].
  assert (Hloop : exists st,
            collect_all nan_net scenario_registry (printed [Banner] initial) =
              (Ok tt, st) /\
            exists r, weather_data st = [r] /\
            exists fig, dashboard_series [r] = Ok fig /\
                        bar_temperatures fig = FloatColumn [nan]).
  { eexists. split; [vm_compute; reflexivity|].
    eexists. split; [reflexivity|].
    eexists. split; [vm_compute; reflexivity|]. reflexivity. }
  destruct Hloop as (st & Hloop & r & Hdata & fig & Hfig & Htemperature).
  rewrite run_weather_data, Hloop in Hclaim. simpl in Hclaim.
  rewrite Hdata in Hclaim. specialize (Hclaim ltac:(done)).
  destruct (run_after_loop mpl nan_net scenario_registry st fig Hloop)
    as [Hfails Hgoes]; [by rewrite Hdata|by rewrite Hdata|].
  destruct (draws mpl fig && saves mpl fig) eqn:Hmpl.
  - destruct (Hgoes eq_refl) as [_ Hmissing].
    assert (Hrun : run mpl nan_net scenario_registry initial =
                   (Raise ValueError,
                    printed [DataFetched (weather_data st); DashboardSaved;
                             SummaryHeader; AverageTemperature]
                            (saved fig st))).
    { apply Hmissing. rewrite Htemperature. intros n Hn.
      apply list_elem_of_singleton in Hn as ->. reflexivity. }
    apply (f_equal fst) in Hrun. cbn [fst] in Hrun. congruence.
  - pose proof (Hfails eq_refl) as Hrun.
    apply (f_equal fst) in Hrun. cbn [fst] in Hrun. congruence.
Qed.

(** C3, amended. After a loop that left the table empty the script
    prints the error line and exits: nothing else is printed and no
    file is written.  After a loop that left a table with numeric
    columns, the figure is built and saved: if a plotting call or the
    save raises, the run ends there, with no file and no summary;
    otherwise the image is written and the summary follows, to a normal
    end when some temperature is a number, and to a [ValueError] after
    the first summary line when none is. *)
Theorem run_outcome mpl net registry st :
  collect_all net registry (printed [Banner] initial) = (Ok tt, st) ->
  quiet st /\
  (weather_data st = [] ->
     run mpl net registry initial = (Raise SystemExit, printed [NoDataError] st)) /\
  (forall fig,
     weather_data st <> [] ->
     dashboard_series (weather_data st) = Ok fig ->
     (draws mpl fig && saves mpl fig = false ->
        run mpl net registry initial =
          (Raise RenderingError, printed [DataFetched (weather_data st)] st)) /\
     (draws mpl fig && saves mpl fig = true ->
        (forall n,
           n ∈ cells (bar_temperatures fig) -> number_missing n = false ->
           exists highest lowest,
             run mpl net registry initial =
               (Ok tt,
                printed (DataFetched (weather_data st) :: DashboardSaved ::
                         summary_lines highest lowest ++ [TaskCompleted])
                        (saved fig st))) /\
        ((forall n, n ∈ cells (bar_temperatures fig) ->
                    number_missing n = true) ->
         run mpl net registry initial =
           (Raise ValueError,
            printed [DataFetched (weather_data st); DashboardSaved;
                     SummaryHeader; AverageTemperature]
                    (saved fig st))))).
Proof.
  intros Hloop. split; [|split].
  - pose proof (collect_all_quiet net registry (printed [Banner] initial)) as Hq.
    rewrite Hloop in Hq. apply Hq. split; [done|]. by repeat constructor.
  - intros Hempty. rewrite run_unfold. unfold run_cases. rewrite Hloop. simpl.
    by rewrite bool_decide_true.
  - intros fig Hne Hfig. by apply run_after_loop.
Qed.

Lemma run_outcome_witness :
  run agreeable unreachable scenario_registry initial =
    (Raise SystemExit,
     {| console := [Banner; Fetching "A"; FetchFailed "A" "connection refused";
                    Fetching "B"; FetchFailed "B" "connection refused";
                    NoDataError];
        weather_data := [];
        files := [] |}) /\
  exists highest lowest,
    run agreeable scenario_net scenario_registry initial =
      (Ok tt,
       {| console := [Banner; Fetching "A"; Fetched "A" (PInt 15) "Clear sky";
                      Fetching "B"; FetchFailed "B" "connection refused";
                      DataFetched [record_A]; DashboardSaved] ++
                     summary_lines highest lowest ++ [TaskCompleted];
          weather_data := [record_A];
          files := [("weather_dashboard.png"%string, figure_A)] |}).
Proof.
  split.
  - apply (run_outcome agreeable unreachable scenario_registry
             {| console := [Banner; Fetching "A";
                            FetchFailed "A" "connection refused";
                            Fetching "B";
                            FetchFailed "B" "connection refused"];
                weather_data := []; files := [] |}).
    + vm_compute. reflexivity.
    + reflexivity.
  - apply (run_outcome agreeable scenario_net scenario_registry
             {| console := [Banner; Fetching "A";
                            Fetched "A" (PInt 15) "Clear sky";
                            Fetching "B";
                            FetchFailed "B" "connection refused"];
                weather_data := [record_A]; files := [] |})
      with (fig := figure_A) (n := Int64 15).
    + vm_compute. reflexivity.
    + discriminate.
    + vm_compute. reflexivity.
    + reflexivity.
    + apply list_elem_of_here.
    + reflexivity.
Defined.

(** When the plotting calls raise, the run ends after the table was
    printed: no file, no summary. *)
Example rendering_failure_is_fatal :
  run failing scenario_net scenario_registry initial =
    (Raise RenderingError,
     {| console := [Banner; Fetching "A"; Fetched "A" (PInt 15) "Clear sky";
                    Fetching "B"; FetchFailed "B" "connection refused";
                    DataFetched [record_A]];
        weather_data := [record_A];
        files := [] |}).
Proof. vm_compute. reflexivity. Qed.

(** ** Bar colours *)

Lemma single_int_color_divisor z :
  color_divisor (IntColumn [z]) = 0%float.
Proof.
  unfold color_divisor, column_max, column_min. simpl.
  by rewrite Z.sub_diag.
Qed.

(** C9, at the scenario where only A answers. The divisor of the bar
    colours is zero, the one colour position is 0/0 = NaN, and the
    image is written all the same, with that figure, whenever the
    plotting calls and the save go through. *)
Theorem single_record_color_divisor_is_zero mpl :
  let st := (run mpl scenario_net scenario_registry initial).2 in
  weather_data st = [record_A] /\
  color_divisor (IntColumn [15]) = 0%float /\
  exists fig,
    dashboard_series (weather_data st) = Ok fig /\
    bar_temperatures fig = IntColumn [15] /\
    bar_colors fig = [nan] /\
    (draws mpl fig && saves mpl fig = true ->
     files st = [("weather_dashboard.png"%string, fig)]).
Proof.
  intros st.
  assert (Hloop : collect_all scenario_net scenario_registry
                    (printed [Banner] initial) =
                  (Ok tt, {| console := [Banner; Fetching "A";
                                         Fetched "A" (PInt 15) "Clear sky";
                                         Fetching "B";
                                         FetchFailed "B" "connection refused"];
                             weather_data := [record_A]; files := [] |}))
    by (vm_compute; reflexivity).
  assert (Hdata : weather_data st = [record_A])
    by (unfold st; by rewrite run_weather_data, Hloop).
  split; [done|]. split; [vm_compute; reflexivity|].
  exists figure_A. rewrite Hdata.
  split; [vm_compute; reflexivity|]. split; [done|]. split; [done|].
  intros Hgoes. apply andb_prop in Hgoes as [Hdraws Hsaves].
  assert (Hfig : dashboard_series [record_A] = Ok figure_A)
    by (vm_compute; reflexivity).
  unfold st. rewrite run_unfold. unfold run_cases, render_dashboard.
  rewrite Hloop. cbn [weather_data]. cbv zeta.
  rewrite bool_decide_false by done. rewrite Hfig.
  cbn [mbind result_bind]. rewrite Hdraws, Hsaves.
  match goal with |- context [summary_statistics ?d ?s] =>
    pose proof (summary_statistics_state d s) as [_ Hfiles];
    destruct (summary_statistics d s) as [[[]|e] st2] end; simpl in *;
    by rewrite Hfiles.
Qed.

(** * Further properties of the script *)

(** ** What the loop leaves behind *)

Ltac collect_split net c :=
  rewrite collect_unfold; unfold collect_cases;
  destruct (net c) as [?e|?json] eqn:?Hnet;
    [|destruct (has_current _) as [[]|?e] eqn:?Hguard;
        [destruct (py_getitem _ "current") as [?w|?e] eqn:?Hitem;
           [simpl; destruct (build_weather_info c _) as [?r|?e] eqn:?Hbuild|]
        | | ]];
  simpl.

Lemma build_weather_info_origin city_info current r :
  build_weather_info city_info current = Ok r -> origin r = city_info.
Proof.
  intros Hr. apply build_weather_info_fields in Hr
    as (_ & _ & Hname & _ & _ & _ & _ & _ & Hlat & Hlon & _).
  unfold origin. rewrite Hname, Hlat, Hlon. by destruct city_info.
Qed.

Lemma collect_added net city_info st :
  exists added,
    weather_data (collect net city_info st).2 = weather_data st ++ added /\
    origin <$> added `sublist_of` [city_info].
Proof.
  collect_split net city_info;
    try (exists []; split; [by rewrite app_nil_r|apply sublist_nil_l]).
  exists [r]. split; [done|]. simpl.
  by rewrite (build_weather_info_origin _ _ _ Hbuild).
Qed.

Lemma collect_all_added net registry :
  forall st, exists added,
    weather_data (collect_all net registry st).2 = weather_data st ++ added /\
    origin <$> added `sublist_of` registry.
Proof.
  induction registry as [|c registry IH]; intros st.
  { exists []. split; [by rewrite app_nil_r|done]. }
  rewrite collect_all_cons.
  destruct (collect_added net c st) as (added & Hdata & Hsub).
  destruct (collect net c st) as [[[]|e] st']; simpl in *.
  - destruct (IH st') as (added' & Hdata' & Hsub').
    exists (added ++ added'). split.
    + by rewrite Hdata', Hdata, app_assoc.
    + rewrite fmap_app. change (c :: registry) with ([c] ++ registry).
      by apply sublist_app.
  - exists added. split; [done|].
    rewrite <- (app_nil_r (origin <$> added)).
    change (c :: registry) with ([c] ++ registry).
    apply sublist_app; [done|apply sublist_nil_l].
Qed.

(** X1. However the run ends, the table is drawn from the registry in
    registry order: the name and coordinates of its records form a
    sublist of the registry, and so do its city names of the registry's
    names. *)
Theorem table_is_sublist_of_registry mpl net registry :
  let table := weather_data (run mpl net registry initial).2 in
  origin <$> table `sublist_of` registry /\
  City <$> table `sublist_of` name <$> registry.
Proof.
  intros table. unfold table. rewrite run_weather_data.
  destruct (collect_all_added net registry (printed [Banner] initial))
    as (added & -> & Hsub).
  simpl. split; [done|].
  replace (City <$> added) with (name <$> (origin <$> added))
    by by rewrite <- list_fmap_compose.
  by apply fmap_sublist.
Qed.

Lemma collect_fetched_lines net city_info st :
  fetched_lines (console st) = fetched_line <$> weather_data st ->
  fetched_lines (console (collect net city_info st).2) =
    fetched_line <$> weather_data (collect net city_info st).2.
Proof.
  intros Hst. unfold fetched_lines in *.
  collect_split net city_info; rewrite omap_app; simpl;
    rewrite Hst, ?app_nil_r; try done.
  apply build_weather_info_fields in Hbuild as (_ & _ & Hname & _).
  rewrite fmap_app. unfold fetched_line at 3. simpl. by rewrite Hname.
Qed.

Lemma collect_all_fetched_lines net registry :
  forall st,
    fetched_lines (console st) = fetched_line <$> weather_data st ->
    fetched_lines (console (collect_all net registry st).2) =
      fetched_line <$> weather_data (collect_all net registry st).2.
Proof.
  induction registry as [|c registry IH]; intros st Hst; [done|].
  rewrite collect_all_cons.
  pose proof (collect_fetched_lines net c st Hst) as Hc.
  destruct (collect net c st) as [[[]|e] st']; simpl in *; [by apply IH|done].
Qed.

(** X2. When the loop stops, for whatever reason, the check-mark lines
    on the console are the records of the table, one line per record
    and in the same order, each with the record's city, temperature
    and description. *)
Theorem fetched_lines_are_the_table net registry :
  let st := (collect_all net registry (printed [Banner] initial)).2 in
  fetched_lines (console st) = fetched_line <$> weather_data st.
Proof. intros st. by apply collect_all_fetched_lines. Qed.

Lemma collect_lines net city_info st st' :
  collect net city_info st = (Ok tt, st') ->
  fetching_lines (console st') =
    fetching_lines (console st) ++ [name city_info] /\
  failed_lines (console st') =
    failed_lines (console st) ++ request_failures net [city_info].
Proof.
  unfold fetching_lines, failed_lines, request_failures. simpl.
  collect_split net city_info; intros [= <-]; simpl;
    rewrite !omap_app; simpl; by rewrite ?app_nil_r.
Qed.

Lemma collect_all_lines net registry :
  forall st st',
    collect_all net registry st = (Ok tt, st') ->
    fetching_lines (console st') =
      fetching_lines (console st) ++ (name <$> registry) /\
    failed_lines (console st') =
      failed_lines (console st) ++ request_failures net registry.
Proof.
  induction registry as [|c registry IH]; intros st st'.
  { intros [= <-]. by rewrite !app_nil_r. }
  rewrite collect_all_cons.
  destruct (collect net c st) as [[[]|e] st1] eqn:Hc; [|done].
  intros Hrest. apply collect_lines in Hc as [Hf1 Hx1].
  apply IH in Hrest as [Hf2 Hx2]. rewrite Hf2, Hx2, Hf1, Hx1.
  rewrite <- !app_assoc. split; [done|]. f_equal.
  unfold request_failures. simpl. by destruct (net c).
Qed.

(** X3. When the loop runs to its end, it has printed one progress
    line per city of the registry, in registry order, and one error
    line for each city whose request raised, and for no other, with
    that city's name and the text of its exception. *)
Theorem loop_lines net registry st :
  collect_all net registry (printed [Banner] initial) = (Ok tt, st) ->
  fetching_lines (console st) = name <$> registry /\
  failed_lines (console st) = request_failures net registry.
Proof. intros Hloop. by apply collect_all_lines in Hloop. Qed.

Lemma loop_lines_witness :
  fetching_lines
    (console (collect_all scenario_net scenario_registry
                (printed [Banner] initial)).2) = ["A"; "B"]%string /\
  failed_lines
    (console (collect_all scenario_net scenario_registry
                (printed [Banner] initial)).2) =
    [("B", "connection refused")]%string.
Proof.
  apply (loop_lines scenario_net scenario_registry). vm_compute. reflexivity.
Defined.

(** ** Exceptions in the loop *)

Lemma as_float_raises v e :
  as_float v = Raise e -> e = TypeError \/ e = OverflowError.
Proof.
  destruct v as [|b|z|f|s|l|d]; simpl; try (intros [= <-]; by left); try done.
  unfold int_to_float.
  destruct (binary_normalize prec emax z 0 false); try done.
  intros [= <-]. by right.
Qed.

Lemma build_weather_info_raises city_info current e :
  build_weather_info city_info current = Raise e ->
  e = TypeError \/ e = AttributeError \/ e = OverflowError.
Proof.
  unfold build_weather_info.
  destruct current as [| | | | | |fields]; simpl;
    try (intros [= <-]; right; by left).
  unfold get_weather_description.
  destruct (dict_key _) as [k|e'] eqn:Hkey; simpl.
  - unfold py_mul_float, py_sub_float.
    destruct (as_float (default (PInt 0) (fields !! "wind_speed_10m")))
      as [w|e'] eqn:Hw; simpl.
    + destruct (as_float (default (PInt 0) (fields !! "temperature_2m")))
        as [t|e'] eqn:Ht; simpl; [done|].
      intros [= <-]. apply as_float_raises in Ht as [->| ->]; auto.
    + intros [= <-]. apply as_float_raises in Hw as [->| ->]; auto.
  - intros [= <-]. left.
    destruct (default (PInt 0) (fields !! "weather_code")); simpl in Hkey;
      congruence.
Qed.

Lemma has_current_raises json e : has_current json = Raise e -> e = TypeError.
Proof.
  unfold has_current. destruct (truthy json); [|done].
  destruct json; simpl; congruence.
Qed.

Lemma py_getitem_after_guard json e :
  has_current json = Ok true -> py_getitem json "current" = Raise e ->
  e = TypeError.
Proof.
  destruct json as [| | | | | |data]; simpl; try congruence.
  rewrite has_current_dict. intros [= Hguard].
  apply bool_decide_eq_true in Hguard as [v Hv]. by rewrite Hv.
Qed.

Lemma collect_raises net city_info st e st' :
  collect net city_info st = (Raise e, st') ->
  st' = printed [Fetching (name city_info)] st /\
  (e = TypeError \/ e = AttributeError \/ e = OverflowError).
Proof.
  collect_split net city_info; intros [= <- <-]; try done; split; try done.
  - by apply build_weather_info_raises in Hbuild.
  - left. by eapply py_getitem_after_guard.
  - left. by eapply has_current_raises.
Qed.

(** X4. An exception in the iteration of one city ends the loop there:
    the cities after it are never fetched, the city itself has its
    progress line and no record, and the records gathered before it
    stay.  The exception is a [TypeError], an [AttributeError] or an
    [OverflowError]. *)
Theorem loop_stops_at_first_exception net before city_info after st st1 e st2 :
  collect_all net before st = (Ok tt, st1) ->
  collect net city_info st1 = (Raise e, st2) ->
  collect_all net (before ++ city_info :: after) st =
    (Raise e, printed [Fetching (name city_info)] st1) /\
  weather_data (printed [Fetching (name city_info)] st1) = weather_data st1 /\
  (e = TypeError \/ e = AttributeError \/ e = OverflowError).
Proof.
  intros Hbefore Hcity.
  pose proof (collect_raises _ _ _ _ _ Hcity) as [-> Hkind].
  rewrite collect_all_app, Hbefore, collect_all_cons, Hcity. done.
Qed.

Lemma loop_stops_at_first_exception_witness :
  collect_all null_wind_net ([] ++ city_A :: [city_B]) initial =
    (Raise TypeError, printed [Fetching (name city_A)] initial) /\
  weather_data (printed [Fetching (name city_A)] initial) =
    weather_data initial /\
  (TypeError = TypeError \/ TypeError = AttributeError \/
   TypeError = OverflowError).
Proof.
  apply (loop_stops_at_first_exception null_wind_net [] city_A [city_B]
           initial initial TypeError (printed [Fetching "A"] initial)).
  - reflexivity.
  - vm_compute. reflexivity.
Defined.

(** X5. A body whose [current] entry is not an object ([null], a
    number, a list) passes the guard of the loop and then raises
    [AttributeError] at the first field access; no record is added. *)
Theorem current_not_an_object_raises net city_info st data current :
  net city_info = Body (PDict data) ->
  data !! "current" = Some current ->
  (forall fields, current <> PDict fields) ->
  collect net city_info st =
    (Raise AttributeError, printed [Fetching (name city_info)] st).
Proof.
  intros Hnet Hcurrent Hshape. rewrite collect_unfold. unfold collect_cases.
  rewrite Hnet, has_current_dict, Hcurrent.
  rewrite bool_decide_true by by eexists.
  simpl. rewrite Hcurrent. simpl.
  destruct current as [| | | | | |fields]; try done.
  by destruct (Hshape fields).
Qed.

Lemma current_not_an_object_raises_witness :
  collect null_current_net city_A initial =
    (Raise AttributeError, printed [Fetching (name city_A)] initial).
Proof.
  apply (current_not_an_object_raises null_current_net city_A initial
           {[ "current" := PNone ]} PNone).
  - reflexivity.
  - reflexivity.
  - discriminate.
Defined.

(** X6. A body that is not a JSON object never yields a record: it
    is passed over without a message when it is empty or has no
    "current" in it, and raises [TypeError] otherwise. *)
Theorem body_not_an_object net city_info st json :
  net city_info = Body json ->
  (forall data, json <> PDict data) ->
  collect net city_info st = (Ok tt, printed [Fetching (name city_info)] st) \/
  collect net city_info st =
    (Raise TypeError, printed [Fetching (name city_info)] st).
Proof.
  intros Hnet Hshape. rewrite collect_unfold. unfold collect_cases.
  rewrite Hnet.
  destruct (has_current json) as [[]|e] eqn:Hguard.
  - right. destruct json as [| | | | | |data]; simpl; try done.
    by destruct (Hshape data).
  - by left.
  - right. by rewrite (has_current_raises _ _ Hguard).
Qed.

Lemma body_not_an_object_witness :
  collect (fun _ => Body (PList [PStr "current"])) city_A initial =
    (Ok tt, printed [Fetching (name city_A)] initial) \/
  collect (fun _ => Body (PList [PStr "current"])) city_A initial =
    (Raise TypeError, printed [Fetching (name city_A)] initial).
Proof.
  apply (body_not_an_object (fun _ => Body (PList [PStr "current"]))
           city_A initial (PList [PStr "current"])).
  - reflexivity.
  - discriminate.
Defined.

(** ** How the run ends *)

Lemma collect_all_raises net registry :
  forall st e st',
    collect_all net registry st = (Raise e, st') ->
    e = TypeError \/ e = AttributeError \/ e = OverflowError.
Proof.
  induction registry as [|c registry IH]; intros st e st'; [done|].
  rewrite collect_all_cons.
  destruct (collect net c st) as [[[]|e1] st1] eqn:Hc.
  - apply IH.
  - intros [= <- <-]. by apply collect_raises in Hc as [_ ?].
Qed.

Lemma collect_answered net city_info st st' :
  collect net city_info st = (Ok tt, st') ->
  City <$> weather_data st' =
    (City <$> weather_data st) ++
    (name <$> filter (answered net) [city_info]).
Proof.
  rewrite filter_cons, filter_nil. unfold answered.
  collect_split net city_info; intros [= <-]; simpl;
    rewrite ?app_nil_r; try done.
  apply build_weather_info_fields in Hbuild as (_ & _ & Hname & _).
  by rewrite fmap_app, <- Hname.
Qed.

Lemma collect_all_answered net registry :
  forall st st',
    collect_all net registry st = (Ok tt, st') ->
    City <$> weather_data st' =
      (City <$> weather_data st) ++ (name <$> filter (answered net) registry).
Proof.
  induction registry as [|c registry IH]; intros st st'.
  { intros [= <-]. by rewrite app_nil_r. }
  rewrite collect_all_cons.
  destruct (collect net c st) as [[[]|e] st1] eqn:Hc; [|done].
  intros Hrest. apply collect_answered in Hc. apply IH in Hrest.
  rewrite Hrest, Hc, <- app_assoc, <- fmap_app.
  by change (c :: registry) with ([c] ++ registry); rewrite filter_app.
Qed.

Lemma to_column_raises vals e : to_column vals = Raise e -> e = NotModelled.
Proof.
  unfold to_column. destruct (mapM int_cell vals); [done|].
  destruct (mapM float_cell vals); congruence.
Qed.

Lemma dashboard_series_raises df e :
  dashboard_series df = Raise e -> e = NotModelled.
Proof.
  unfold dashboard_series.
  destruct (to_column (Temperature <$> df)) eqn:Ht; simpl;
    [|intros [= <-]; by eapply to_column_raises].
  destruct (to_column (Humidity <$> df)) eqn:Hh; simpl;
    [|intros [= <-]; by eapply to_column_raises].
  destruct (to_column (Wind_Speed <$> df)) eqn:Hw; simpl;
    [done|intros [= <-]; by eapply to_column_raises].
Qed.

Lemma render_dashboard_raises mpl df e :
  render_dashboard mpl df = Raise e -> e = NotModelled \/ e = RenderingError.
Proof.
  unfold render_dashboard.
  destruct (dashboard_series df) as [fig|e'] eqn:Hfig; simpl.
  - destruct (draws mpl fig); [done|]. intros [= <-]. by right.
  - intros [= <-]. left. by eapply dashboard_series_raises.
Qed.

Lemma city_at_raises df found e :
  city_at df found = Raise e -> e = ValueError \/ e = KeyError.
Proof.
  destruct found as [[k v]|]; simpl; [|intros [= <-]; by left].
  destruct (df !! k); [done|]. intros [= <-]. by right.
Qed.

Lemma summary_statistics_raises df st e :
  (summary_statistics df st).1 = Raise e -> e <> SystemExit.
Proof.
  unfold summary_statistics. prog_simpl.
  destruct (to_column (Temperature <$> df)) as [temperature|] eqn:Ht; simpl;
    [|intros [= <-]; by rewrite (to_column_raises _ _ Ht)].
  destruct (city_at df (idxmax temperature)) eqn:Hhi; simpl;
    [|intros [= <-]; by apply city_at_raises in Hhi as [->| ->]].
  destruct (city_at df (idxmin temperature)) eqn:Hlo; simpl;
    [|intros [= <-]; by apply city_at_raises in Hlo as [->| ->]].
  destruct (to_column (Humidity <$> df)) eqn:Hh; simpl;
    [|intros [= <-]; by rewrite (to_column_raises _ _ Hh)].
  destruct (to_column (Wind_Speed <$> df)) eqn:Hw; simpl;
    [done|intros [= <-]; by rewrite (to_column_raises _ _ Hw)].
Qed.

(** X7. The run ends in [exit()] exactly when the loop ran to its end
    and no city of the registry passed its guard: one record is enough
    to get past the check, and an exception in the loop never turns
    into the "no data" exit. *)
Theorem exits_iff_no_city_answered mpl net registry :
  (run mpl net registry initial).1 = Raise SystemExit <->
  (exists st, collect_all net registry (printed [Banner] initial) = (Ok tt, st)) /\
  (forall c, c ∈ registry -> answered net c = false).
Proof.
  rewrite run_unfold. unfold run_cases.
  destruct (collect_all net registry (printed [Banner] initial))
    as [[[]|e] st1] eqn:Hloop; simpl.
  - pose proof (collect_all_answered _ _ _ _ Hloop) as Htable. simpl in Htable.
    case_bool_decide as Hempty.
    + split; [intros _|done]. split; [by eexists|].
      intros c Hc. destruct (answered net c) eqn:Hans; [exfalso|done].
      rewrite Hempty in Htable. symmetry in Htable.
      apply fmap_nil_inv in Htable.
      assert (Hin : c ∈ filter (answered net) registry)
        by (apply list_elem_of_filter; by rewrite Hans).
      rewrite Htable in Hin. by apply elem_of_nil in Hin.
    + split.
      * destruct (render_dashboard mpl (weather_data st1)) as [fig|e] eqn:Hfig;
          simpl.
        -- destruct (saves mpl fig); [|done].
           match goal with |- context [summary_statistics ?d ?s] =>
             pose proof (summary_statistics_raises d s) as Hsum;
             destruct (summary_statistics d s) as [[[]|e] st2] end;
             simpl in *; [done|].
           intros [= ->]. by destruct (Hsum SystemExit).
        -- intros [= ->].
           by destruct (render_dashboard_raises _ _ _ Hfig).
      * intros [_ Hnone]. exfalso. apply Hempty.
        apply (fmap_nil_inv City). rewrite Htable.
        replace (filter (answered net) registry) with (@nil city); [done|].
        symmetry. apply elem_of_nil_inv. intros c Hc.
        apply list_elem_of_filter in Hc as [Hans Hc].
        rewrite (Hnone c Hc) in Hans. done.
  - split.
    + intros [= ->]. apply collect_all_raises in Hloop.
      by destruct Hloop as [?|[?|?]].
    + by intros [[st Hst] _].
Qed.

(** ** The image *)

Lemma render_dashboard_series mpl df fig :
  render_dashboard mpl df = Ok fig ->
  dashboard_series df = Ok fig.
Proof.
  unfold render_dashboard.
  destruct (dashboard_series df) as [fig'|]; simpl; [|done].
  destruct (draws mpl fig'); [|done]. by intros [= <-].
Qed.

Lemma render_dashboard_columns mpl df fig :
  render_dashboard mpl df = Ok fig ->
  bar_cities fig = City <$> df /\
  to_column (Temperature <$> df) = Ok (bar_temperatures fig) /\
  bar_colors fig = temperature_colors (bar_temperatures fig) /\
  to_column (Humidity <$> df) = Ok (scatter_humidity fig) /\
  to_column (Wind_Speed <$> df) = Ok (line_wind_speed fig) /\
  pie_weather fig = Weather <$> df /\
  grouped_feels_like fig = Feels_Like <$> df.
Proof.
  intros Hfig. by apply dashboard_series_columns, (render_dashboard_series mpl).
Qed.


(** X8. At most one file is ever written, [weather_dashboard.png], and
    only after the loop: when it exists it was rendered from the whole
    table, whose cities are its bars.  A run that ends normally has
    written it; a run stopped by [exit()] or by an exception in the loop
    has written nothing. *)
Theorem image_is_of_the_whole_table mpl net registry :
  let st := (run mpl net registry initial).2 in
  (files st = [] \/
   exists fig,
     files st = [("weather_dashboard.png"%string, fig)] /\
     render_dashboard mpl (weather_data st) = Ok fig /\
     bar_cities fig = City <$> weather_data st) /\
  ((run mpl net registry initial).1 = Ok tt -> files st <> []) /\
  (forall st1 e,
     collect_all net registry (printed [Banner] initial) = (Raise e, st1) ->
     files st = []) /\
  ((run mpl net registry initial).1 = Raise SystemExit -> files st = []).
Proof.
  intros st. unfold st. rewrite run_unfold. unfold run_cases.
  assert (Hq : quiet (collect_all net registry (printed [Banner] initial)).2).
  { apply collect_all_quiet. split; [done|]. by repeat constructor. }
  destruct (collect_all net registry (printed [Banner] initial))
    as [[[]|e] st1] eqn:Hloop; simpl in *.
  - destruct Hq as [Hfiles _].
    case_bool_decide as Hempty; simpl.
    { split; [by left|]. split; [done|]. split; done. }
    destruct (render_dashboard mpl (weather_data st1)) as [fig|e] eqn:Hfig; simpl.
    2: { split; [by left|]. split; [done|]. split; done. }
    assert (Hbars : bar_cities fig = City <$> weather_data st1)
      by by apply render_dashboard_columns in Hfig as [? _].
    destruct (saves mpl fig); simpl.
    2: { split; [by left|]. split; [done|]. split; done. }
    match goal with |- context [summary_statistics ?d ?s] =>
      pose proof (summary_statistics_state d s) as [Hdata Hsaved];
      pose proof (summary_statistics_raises d s) as Hsum;
      destruct (summary_statistics d s) as [[[]|e] st2] end; simpl in *;
      rewrite Hsaved, Hdata, Hfiles; simpl.
    + split; [right; by exists fig|]. split; [done|]. split; done.
    + split; [right; by exists fig|]. split; [done|]. split; [done|].
      intros [= ->]. by destruct (Hsum SystemExit).
  - destruct Hq as [Hfiles _].
    split; [by left|]. split; [done|]. split; done.
Qed.



(** ** Feels-like without wind *)

Lemma float_sub_zero (t : float) : (t - 0)%float = t.
Proof.
  rewrite <- (SF2Prim_Prim2SF (t - 0)). rewrite <- (SF2Prim_Prim2SF t) at 2.
  rewrite sub_spec. f_equal.
  change (Prim2SF 0) with (S754_zero false).
  unfold SF64sub, SFsub.
  destruct (Prim2SF t) as [[]|[]| |[] m e]; reflexivity.
Qed.

(** X10. A record whose wind speed is zero (as it is when the field is
    absent and defaults to 0) has a feels-like value equal to its
    temperature as a float. *)
Theorem no_wind_feels_like_temperature mpl net registry r :
  r ∈ weather_data (run mpl net registry initial).2 ->
  as_float (Wind_Speed r) = Ok 0%float ->
  as_float (Temperature r) = Ok (Feels_Like r).
Proof.
  rewrite run_weather_data. revert r.
  apply (Forall_forall (fun r => as_float (Wind_Speed r) = Ok 0%float ->
                                 as_float (Temperature r) = Ok (Feels_Like r))).
  apply collect_all_preserves; [|constructor].
  intros c w r Hr. apply build_weather_info_fields in Hr.
  destruct Hr as (_ & _ & _ & _ & _ & _ & _ & _ & _ & _ & t & w' & Ht & Hw & ->).
  rewrite Hw. intros [= ->]. rewrite Ht. f_equal.
  change (0 * 0.5)%float with 0%float. symmetry. apply float_sub_zero.
Qed.

Lemma no_wind_feels_like_temperature_witness :
  as_float (Temperature record_frost) = Ok (Feels_Like record_frost).
Proof.
  apply (no_wind_feels_like_temperature agreeable frost_net scenario_registry
           record_frost).
  - vm_compute. apply list_elem_of_here.
  - vm_compute. reflexivity.
Defined.

(** ** More on the translator *)

Lemma Unknown_is_no_label :
  "Unknown"%string ∉ weather_codes_items.*2.
Proof. apply (bool_decide_unpack _). vm_compute. exact I. Qed.

(** X11. On an integer code the answer "Unknown" means exactly that
    the code is not in the table: no code of the table is labelled
    "Unknown". *)
Theorem unknown_iff_not_in_table (code : Z) :
  get_weather_description (PInt code) = Ok "Unknown"%string <->
  code ∉ weather_codes_items.*1.
Proof.
  rewrite get_weather_description_int. split.
  - intros Hunknown Hin.
    apply list_elem_of_fmap in Hin as ([code' label] & Hcode & Hin).
    cbn [fst] in Hcode. subst code'.
    assert (Hlookup : weather_codes !! code = Some label).
    { apply (elem_of_list_to_map (M := gmap Z)); [|done].
      apply weather_codes_keys_NoDup. }
    rewrite Hlookup in Hunknown. cbn [from_option id] in Hunknown.
    injection Hunknown as ->.
    apply Unknown_is_no_label.
    apply list_elem_of_fmap. by exists (code, "Unknown"%string).
  - intros Hnotin.
    assert (Hlookup : weather_codes !! code = None)
      by by apply (not_elem_of_list_to_map (M := gmap Z)).
    by rewrite Hlookup.
Qed.

(** X12. Whatever object it is given, the translator answers with a
    label of the table or with "Unknown"; it raises, a [TypeError],
    exactly on lists and dictionaries, which cannot be dictionary
    keys. *)
Theorem get_weather_description_range (code : pyval) :
  (forall label, get_weather_description code = Ok label ->
     label = "Unknown"%string \/ label ∈ weather_codes_items.*2) /\
  (forall e, get_weather_description code = Raise e ->
     e = TypeError /\
     ((exists l, code = PList l) \/ (exists d, code = PDict d))) /\
  ((exists l, code = PList l) \/ (exists d, code = PDict d) ->
     get_weather_description code = Raise TypeError).
Proof.
  unfold get_weather_description. split; [|split].
  - intros label.
    destruct (dict_key code) as [[k|]|e]; cbn [mbind result_bind option_bind].
    + destruct (weather_codes !! k) as [label'|] eqn:Hk; cbn [from_option id].
      * intros [= <-]. right.
        apply (elem_of_list_to_map_2 (M := gmap Z)) in Hk.
        apply list_elem_of_fmap. by exists (k, label').
      * intros [= <-]. by left.
    + intros [= <-]. by left.
    + done.
  - intros e. destruct code; cbn [dict_key mbind result_bind]; try done;
      intros [= <-]; split; eauto.
  - intros [[l ->]|[d ->]]; reflexivity.
Qed.

(** ** Bar colours of equal temperatures *)

Lemma first_best_from_replicate (better : Z -> Z -> bool) z n :
  better z z = false ->
  forall i k,
    first_best_from better never i (Some (k, z)) (replicate n z) = Some (k, z).
Proof.
  intros Hirr. induction n as [|n IH]; intros i k; [done|].
  simpl. unfold keep_best. simpl. rewrite Hirr. apply IH.
Qed.

Lemma first_best_replicate (better : Z -> Z -> bool) z n :
  better z z = false ->
  first_best better never (replicate (S n) z) = Some (0%nat, z).
Proof. intros Hirr. by apply first_best_from_replicate. Qed.

Lemma temperature_colors_replicate z n :
  color_divisor (IntColumn (replicate (S n) z)) = 0%float /\
  temperature_colors (IntColumn (replicate (S n) z)) = replicate (S n) nan.
Proof.
  assert (Hmax : column_max (IntColumn (replicate (S n) z)) = Int64 z).
  { unfold column_max, idxmax.
    by rewrite (first_best_replicate Z_gt z n (Z_gt_irrefl z)). }
  assert (Hmin : column_min (IntColumn (replicate (S n) z)) = Int64 z).
  { unfold column_min, idxmin.
    by rewrite (first_best_replicate Z_lt z n (Z_lt_irrefl z)). }
  assert (Hdiv : color_divisor (IntColumn (replicate (S n) z)) = 0%float).
  { unfold color_divisor. rewrite Hmax, Hmin. simpl. by rewrite Z.sub_diag. }
  split; [done|].
  unfold temperature_colors, color_numerators. rewrite Hdiv, Hmin.
  unfold cells. rewrite !fmap_replicate. f_equal.
  simpl. by rewrite Z.sub_diag.
Qed.

Lemma mapM_int_cell_equal df z :
  is_int64 z = true ->
  Forall (fun r => Temperature r = PInt z) df ->
  mapM int_cell (Temperature <$> df) = Some (replicate (length df) z).
Proof.
  intros Hz Hall. induction Hall as [|r df Hr _ IH]; [done|].
  rewrite fmap_cons, Hr. cbn -[is_int64]. rewrite Hz.
  cbn -[is_int64]. by rewrite IH.
Qed.

(** X13. When every record of the table carries the same integer
    temperature (a single record, or cities that agree), the bar chart
    is handed colours computed with a zero divisor: every colour
    position is NaN. *)
Theorem equal_temperatures_give_nan_colors df z fig :
  df <> [] ->
  Forall (fun r => Temperature r = PInt z) df ->
  dashboard_series df = Ok fig ->
  color_divisor (bar_temperatures fig) = 0%float /\
  bar_colors fig = replicate (length df) nan.
Proof.
  intros Hne Hall Hfig.
  apply dashboard_series_columns in Hfig as (_ & Ht & -> & _).
  destruct df as [|r df]; [done|].
  destruct (is_int64 z) eqn:Hz.
  - unfold to_column in Ht. rewrite (mapM_int_cell_equal _ z Hz Hall) in Ht.
    injection Ht as <-. apply temperature_colors_replicate.
  - exfalso. apply Forall_cons in Hall as [Hr _].
    unfold to_column in Ht. rewrite fmap_cons, Hr in Ht.
    cbn -[is_int64] in Ht. rewrite Hz in Ht. done.
Qed.

Lemma equal_temperatures_give_nan_colors_witness :
  color_divisor (IntColumn [20; 20]) = 0%float /\
  [nan; nan] = replicate (length [row "A" 20; row "B" 20]) nan.
Proof.
  apply (equal_temperatures_give_nan_colors [row "A" 20; row "B" 20] 20
           {| bar_cities := ["A"; "B"]%string;
              bar_temperatures := IntColumn [20; 20];
              bar_colors := [nan; nan];
              scatter_humidity := IntColumn [50; 50];
              line_wind_speed := IntColumn [4; 4];
              pie_weather := ["Clear sky"; "Clear sky"]%string;
              grouped_feels_like := [18; 18]%float |}).
  - discriminate.
  - repeat constructor.
  - vm_compute. reflexivity.
Defined.

(** ** The pie chart *)

Lemma weather_counts_cons r df :
  weather_counts (r :: df) =
  <[ Weather r := S (default 0%nat (weather_counts df !! Weather r)) ]>
    (weather_counts df).
Proof. reflexivity. Qed.

(** X14. The pie chart counts, for each description, the records that
    carry it: a description of the table gets the number of its
    records, which is at least one, and no other description gets a
    slice. *)
Theorem weather_counts_spec df label :
  default 0%nat (weather_counts df !! label) =
    length (filter (fun r => Weather r = label) df) /\
  (is_Some (weather_counts df !! label) <-> label ∈ Weather <$> df) /\
  (forall n, weather_counts df !! label = Some n -> (0 < n)%nat).
Proof.
  induction df as [|r df (IHcount & IHdom & IHpos)].
  { split; [done|]. split; [|done]. split; [by intros [? ?]|].
    intros H. by apply elem_of_nil in H. }
  rewrite weather_counts_cons, filter_cons, fmap_cons.
  destruct (decide (Weather r = label)) as [->|Hne].
  - rewrite lookup_insert_eq. simpl. rewrite IHcount.
    split; [done|]. split; [|intros n [= <-]; lia].
    split; [intros _; by left|by eexists].
  - rewrite lookup_insert_ne by done. split; [done|]. split; [|done].
    rewrite IHdom, elem_of_cons. split; [by right|].
    intros [Heq|Hin]; [by destruct Hne|done].
Qed.

(** ** Highest and lowest *)

Lemma city_at_Some df found v city_name :
  city_at df found = Ok (v, city_name) ->
  exists k r, found = Some (k, v) /\ df !! k = Some r /\ City r = city_name.
Proof.
  destruct found as [[k v']|]; simpl; [|done].
  destruct (df !! k) as [r|] eqn:Hr; [|done].
  intros [= <- <-]. by exists k, r.
Qed.

(** X15. When the summary is printed in full, the highest temperature
    it reports is not below the lowest one, and both cities it names
    are cities of the table. *)
Theorem summary_highest_not_below_lowest df st st' :
  summary_statistics df st = (Ok tt, st') ->
  exists highest lowest,
    console st' = console st ++ summary_lines highest lowest /\
    number_lt highest.1 lowest.1 = false /\
    highest.2 ∈ City <$> df /\ lowest.2 ∈ City <$> df.
Proof.
  unfold summary_statistics. prog_simpl.
  destruct (to_column (Temperature <$> df)) as [temperature|]; simpl; [|done].
  destruct (city_at df (idxmax temperature)) as [[vhi chi]|] eqn:Hhi; simpl;
    [|done].
  destruct (city_at df (idxmin temperature)) as [[vlo clo]|] eqn:Hlo; simpl;
    [|done].
  destruct (to_column (Humidity <$> df)); simpl; [|done].
  destruct (to_column (Wind_Speed <$> df)); simpl; [|done].
  intros [= <-]. simpl. exists (vhi, chi), (vlo, clo).
  apply city_at_Some in Hhi as (khi & rhi & Hmax & Hrhi & <-).
  apply city_at_Some in Hlo as (klo & rlo & Hmin & Hrlo & <-).
  apply idxmax_first_max in Hmax as (_ & _ & Hall & _).
  apply idxmin_first_min in Hmin as (Hcell & Hvalue & _).
  split; [by rewrite <- !app_assoc|]. split; [by eapply Hall|].
  split; apply list_elem_of_fmap; eexists; split; try done;
    by eapply list_elem_of_lookup_2.
Qed.

Lemma summary_highest_not_below_lowest_witness :
  exists highest lowest,
    console (summary_statistics tie_table initial).2 =
      console initial ++ summary_lines highest lowest /\
    number_lt highest.1 lowest.1 = false /\
    highest.2 ∈ City <$> tie_table /\ lowest.2 ∈ City <$> tie_table.
Proof.
  apply (summary_highest_not_below_lowest tie_table initial).
  vm_compute. reflexivity.
Defined.

(** ** The table of a finished loop, and of the script's own registry *)

(** X16. When the loop runs to its end, whatever the bodies were, the
    cities of the table are exactly the cities of the registry that
    passed the guard of the loop, in registry order. *)
Theorem finished_loop_table net registry st :
  collect_all net registry (printed [Banner] initial) = (Ok tt, st) ->
  City <$> weather_data st = name <$> filter (answered net) registry.
Proof. intros Hloop. by apply collect_all_answered in Hloop. Qed.

Lemma finished_loop_table_witness :
  City <$> weather_data
    (collect_all sparse_net scenario_registry (printed [Banner] initial)).2 =
  name <$> filter (answered sparse_net) scenario_registry.
Proof.
  apply (finished_loop_table sparse_net scenario_registry).
  vm_compute. reflexivity.
Defined.

Lemma cities_names_NoDup : NoDup (name <$> cities).
Proof. apply (bool_decide_unpack _). vm_compute. exact I. Qed.

(** X17. Whatever the network answers, and whether or not the run
    raises, the script's table never has more than ten records, never
    has a city twice, and every record carries the name and the
    coordinates of one of the ten cities. *)
Theorem main_table_bounds (mpl : matplotlib) (net : network) :
  let table := weather_data (main mpl net).2 in
  (length table <= 10)%nat /\
  NoDup (City <$> table) /\
  (forall r, r ∈ table -> origin r ∈ cities).
Proof.
  intros table. unfold table, main. rewrite run_weather_data.
  destruct (collect_all_added net cities (printed [Banner] initial))
    as (added & -> & Hsub).
  simpl. split; [|split].
  - apply sublist_length in Hsub. by rewrite length_fmap in Hsub.
  - replace (City <$> added) with (name <$> (origin <$> added))
      by by rewrite <- list_fmap_compose.
    apply (sublist_NoDup _ (name <$> cities)); [apply cities_names_NoDup|].
    by apply fmap_sublist.
  - intros r Hr. eapply elem_of_sublist; [|exact Hsub].
    apply list_elem_of_fmap. by exists r.
Qed.
